(** * fireorm: the model layer of [fireorm/models.py]

    A shallow embedding of [BaseFirebaseModel]: its class-level reads
    ([get_by_id], [get_by_ids], [get_page]) and its instance-level writes
    ([save], [merge]), in test mode (the in-memory cache handler) and in
    live mode (the document store client). *)

From Stdlib Require Import ZArith List String Ascii Bool Lia.
From stdpp Require Import base option list gmap strings.

Local Open Scope Z_scope.

(** ** Python values *)

(** The values a field of a record or of a stored document holds.  A
    [datetime] is a point of the store's clock; [VServerTimestamp] is the
    sentinel [firestore.SERVER_TIMESTAMP]. *)
#[warning="-register-all"]
Inductive value : Type :=
| VNone
| VInt (n : Z)
| VStr (s : string)
| VTime (t : Z)
| VList (l : list value)
| VServerTimestamp.

(** Python's [==] on these values. *)
Fixpoint value_eqb (a b : value) {struct a} : bool :=
  match a, b with
  | VNone, VNone => true
  | VInt n, VInt m => Z.eqb n m
  | VStr s, VStr t => String.eqb s t
  | VTime s, VTime t => Z.eqb s t
  | VList l, VList k =>
      (fix go (l k : list value) {struct l} : bool :=
         match l, k with
         | [], [] => true
         | x :: l', y :: k' => value_eqb x y && go l' k'
         | _, _ => false
         end) l k
  | VServerTimestamp, VServerTimestamp => true
  | _, _ => false
  end.

(** Python's truth value of an object: [None], [0], the empty string and
    the empty list are false. *)
Definition truthy (v : value) : bool :=
  match v with
  | VNone => false
  | VInt n => negb (Z.eqb n 0)
  | VStr s => negb (String.eqb s "")
  | VTime _ => true
  | VList l => match l with [] => false | _ => true end
  | VServerTimestamp => true
  end.

(** [a or b]. *)
Definition py_or (a b : value) : value := if truthy a then a else b.

(** A field mapping: the interchange format between a record and a store,
    and the state of a record itself (what [self.dict()] returns). *)
Abbreviation Doc := (gmap string value).

(** A [dict] is true when it is not empty. *)
Definition dict_truthy (d : Doc) : bool := negb (bool_decide (d = ∅)).

(** A [dict] given in the call ([update_data], [query_params],
    [array_contains]): its items in the order of iteration. *)
Abbreviation Items := (list (string * value)).

(** ** Exceptions and results *)

Inductive exn : Type :=
| TypeError
| ValueError
| ValidationError
| AlreadyExists
| DanglingReference.

Inductive Res (A : Type) : Type :=
| Ok (a : A)
| Raise (e : exn).
Arguments Ok {A} a.
Arguments Raise {A} e.

#[global] Instance Res_ret : MRet Res := λ A a, Ok a.
#[global] Instance Res_bind : MBind Res := λ A B f r,
  match r with Ok a => f a | Raise e => Raise e end.

(** [value in container]: membership in a list, substring of a string;
    anything else is not iterable. *)
Definition py_in (v container : value) : Res bool :=
  match container with
  | VList l => Ok (existsb (value_eqb v) l)
  | VStr s =>
      match v with
      | VStr sub => Ok (if String.index 0 sub s is Some _ then true else false)
      | _ => Raise TypeError
      end
  | _ => Raise TypeError
  end.

(** [l[start:stop]] for integers of either sign. *)
Definition slice_bound (len i : Z) : Z :=
  if i <? 0 then Z.max 0 (len + i) else Z.min i len.

Definition py_slice {A : Type} (l : list A) (start stop : Z) : list A :=
  let len := Z.of_nat (length l) in
  let lo := slice_bound len start in
  let hi := slice_bound len stop in
  take (Z.to_nat (hi - lo)) (drop (Z.to_nat lo) l).

(** ** The in-memory store: [fireorm.cache.cache_handler] *)

(** A collection of the cache: a Python [dict] from document id to field
    mapping, in insertion order. *)
Abbreviation Collection := (list (value * Doc)).

Fixpoint dict_get {V : Type} (k : value) (d : list (value * V)) : option V :=
  match d with
  | [] => None
  | (k', v) :: d' => if value_eqb k' k then Some v else dict_get k d'
  end.

(** [d[k] = v]: an existing key keeps its place, a new one goes last. *)
Fixpoint dict_set {V : Type} (k : value) (v : V) (d : list (value * V))
  : list (value * V) :=
  match d with
  | [] => [(k, v)]
  | (k', v') :: d' =>
      if value_eqb k' k then (k', v) :: d' else (k', v') :: dict_set k v d'
  end.

Fixpoint dict_del {V : Type} (k : value) (d : list (value * V))
  : list (value * V) :=
  match d with
  | [] => []
  | (k', v') :: d' =>
      if value_eqb k' k then d' else (k', v') :: dict_del k d'
  end.

Module cache_handler.

(** Modelled from the spec: the module [fireorm/cache.py] is not among
    the sources.  Section 4.2 describes the in-memory adapter as a
    process-local mapping from collection name to a mapping from document
    id to field mapping, with exact-match lookup by id and linear-scan
    filtering. *)
Abbreviation t := (gmap string Collection).

Definition collection (c : t) (collection_name : string) : Collection :=
  default [] (c !! collection_name).

(** Modelled from the spec: exact-match lookup by id; [None] when the id
    has no document. *)
Definition get_document (c : t) (collection_name : string) (doc_id : value)
  : option Doc :=
  dict_get doc_id (collection c collection_name).

(** Modelled from the spec: the document is stored under the id, in
    place of what was there. *)
Definition add_document (c : t) (collection_name : string)
    (doc_id : value) (data : Doc) : t :=
  <[collection_name := dict_set doc_id data (collection c collection_name)]> c.

(** Modelled from the spec: "writes the full post-merge record into the
    in-memory store". *)
Definition update_document (c : t) (collection_name : string)
    (doc_id : value) (data : Doc) : t :=
  <[collection_name := dict_set doc_id data (collection c collection_name)]> c.

Definition delete_document (c : t) (collection_name : string)
    (doc_id : value) : t :=
  <[collection_name := dict_del doc_id (collection c collection_name)]> c.

Definition list_collection (c : t) (collection_name : string) : list Doc :=
  (collection c collection_name).*2.

(** Modelled from the spec: a filter [field -> scalar] is equality, a
    filter [field -> list] is membership; a document without the field
    matches neither, as in the live store. *)
Definition matches_param (doc : Doc) (param : string * value) : bool :=
  match doc !! param.1 with
  | None => false
  | Some x =>
      match param.2 with
      | VList choices => existsb (value_eqb x) choices
      | v => value_eqb x v
      end
  end.

(** Modelled from the spec: linear scan of the collection, in its order. *)
Definition query_collection (c : t) (collection_name : string)
    (query_params : option Items) : list Doc :=
  match query_params with
  | None => list_collection c collection_name
  | Some params =>
      List.filter (λ doc, forallb (matches_param doc) params)
                  (list_collection c collection_name)
  end.

End cache_handler.

(** ** The live store: the client [db = firestore.client()] *)

Module firestore.

(** The external document database, as far as the model layer reads and
    writes it: the documents of each collection, the server's clock, and
    the source of the ids of [add]. *)
Record client : Type := Client {
  docs : gmap string (gmap string Doc);
  now : Z;
  auto_id : nat → string;
  auto_pos : nat;
}.

(** What [doc_ref.get()] returns. *)
Record snapshot : Type := Snapshot {
  snap_id : string;
  snap_exists : bool;
  to_dict : option Doc;
}.

Definition get (db : client) (collection_name doc_id : string) : snapshot :=
  match docs db !! collection_name ≫= (.!! doc_id) with
  | Some d => Snapshot doc_id true (Some d)
  | None => Snapshot doc_id false None
  end.

(** The server replaces the sentinel by its time of the write. *)
Definition stamp (t : Z) (v : value) : value :=
  match v with VServerTimestamp => VTime t | _ => v end.

Definition write (db : client) (collection_name doc_id : string) (d : Doc)
  : client :=
  Client (<[collection_name :=
             <[doc_id := d]> (default ∅ (docs db !! collection_name))]>
            (docs db))
         (now db + 1) (auto_id db) (auto_pos db).

(** [collection(name).add(data)]: a document under a generated id. *)
Definition add (db : client) (collection_name : string) (data : Doc)
  : Res (string * client) :=
  let new_id := auto_id db (auto_pos db) in
  let db := Client (docs db) (now db) (auto_id db) (S (auto_pos db)) in
  if snap_exists (get db collection_name new_id) then Raise AlreadyExists
  else Ok (new_id, write db collection_name new_id (stamp (now db) <$> data)).

(** [doc_ref.set(data, merge=True)]: the fields of [data] replace those
    of the stored document, its other fields stay. *)
Definition set_merge (db : client) (collection_name doc_id : string)
    (data : Doc) : client :=
  let old := default ∅ (docs db !! collection_name ≫= (.!! doc_id)) in
  write db collection_name doc_id ((stamp (now db) <$> data) ∪ old).

Definition delete (db : client) (collection_name doc_id : string) : client :=
  Client (<[collection_name :=
             base.delete doc_id (default ∅ (docs db !! collection_name))]>
            (docs db))
         (now db + 1) (auto_id db) (auto_pos db).

(** The predicates of a query: [where(key, "==", v)], [where(key, "in",
    choices)], [where(key, "array_contains", v)]. *)
Inductive predicate : Type :=
| WhereEq (key : string) (v : value)
| WhereIn (key : string) (choices : list value)
| WhereArrayContains (key : string) (v : value).

Definition holds (d : Doc) (p : predicate) : bool :=
  match p with
  | WhereEq key v =>
      match d !! key with Some x => value_eqb x v | None => false end
  | WhereIn key choices =>
      match d !! key with
      | Some x => existsb (value_eqb x) choices
      | None => false
      end
  | WhereArrayContains key v =>
      match d !! key with
      | Some (VList l) => existsb (value_eqb v) l
      | _ => false
      end
  end.

(** [query.offset(start).limit(n).stream()], in the store's enumeration
    of the collection. *)
Definition stream (db : client) (collection_name : string)
    (ps : list predicate) (offset limit : Z) : list (string * Doc) :=
  take (Z.to_nat limit)
    (drop (Z.to_nat offset)
       (List.filter (λ kd : string * Doc, forallb (holds kd.2) ps)
          (map_to_list (default ∅ (docs db !! collection_name))))).

(** [collection.stream()]: every document of the collection. *)
Definition stream_all (db : client) (collection_name : string)
  : list (string * Doc) :=
  map_to_list (default ∅ (docs db !! collection_name)).

End firestore.

(** ** The process state *)

(** What the module's globals and the objects shared with callers hold:
    [config.test_mode], the cache handler, the client [db], the generator
    of module [random] (its draws, and how many were taken), the list that
    is the default of [merge]'s [exclude_props], and the lists callers
    pass for it, by reference. *)
Record World : Type := mkWorld {
  config_test_mode : bool;
  cache : cache_handler.t;
  db : firestore.client;
  rand : nat → nat;
  rand_pos : nat;
  default_exclude_props : list string;
  heap : gmap nat (list string);
}.

Definition set_cache (c : cache_handler.t) (w : World) : World :=
  mkWorld (config_test_mode w) c (db w) (rand w) (rand_pos w)
          (default_exclude_props w) (heap w).

Definition set_db (d : firestore.client) (w : World) : World :=
  mkWorld (config_test_mode w) (cache w) d (rand w) (rand_pos w)
          (default_exclude_props w) (heap w).

Definition set_rand_pos (n : nat) (w : World) : World :=
  mkWorld (config_test_mode w) (cache w) (db w) (rand w) n
          (default_exclude_props w) (heap w).

Definition set_default_exclude_props (l : list string) (w : World) : World :=
  mkWorld (config_test_mode w) (cache w) (db w) (rand w) (rand_pos w)
          l (heap w).

Definition set_heap (h : gmap nat (list string)) (w : World) : World :=
  mkWorld (config_test_mode w) (cache w) (db w) (rand w) (rand_pos w)
          (default_exclude_props w) h.

(** A call: it reads and changes the process state, and returns or raises. *)
Definition M (A : Type) : Type := World → Res (A * World).

#[global] Instance M_ret : MRet M := λ A a w, Ok (a, w).
#[global] Instance M_bind : MBind M := λ A B f m w,
  match m w with Ok (a, w') => f a w' | Raise e => Raise e end.

Definition get_world : M World := λ w, Ok (w, w).
Definition modify_world (f : World → World) : M unit := λ w, Ok (tt, f w).
Definition lift {A : Type} (r : Res A) : M A :=
  λ w, match r with Ok a => Ok (a, w) | Raise e => Raise e end.

(** [for x in l: s = body(s, x)]. *)
Fixpoint for_each {S A : Type} (body : S → A → M S) (l : list A) (s : S)
  : M S :=
  match l with
  | [] => mret s
  | x :: l' => s' ← body s x; for_each body l' s'
  end.

(** [all(p(x) for x in l)]: it stops at the first false. *)
Fixpoint py_all {A : Type} (p : A → Res bool) (l : list A) : Res bool :=
  match l with
  | [] => Ok true
  | x :: l' => b ← p x; if b : bool then py_all p l' else Ok false
  end.

(** [[x for x in l if p(x)]]. *)
Fixpoint py_filter {A : Type} (p : A → Res bool) (l : list A)
  : Res (list A) :=
  match l with
  | [] => Ok []
  | x :: l' =>
      b ← p x; k ← py_filter p l'; Ok (if b : bool then x :: k else k)
  end.

(** The list object behind [exclude_props]: the shared default when the
    argument is omitted, the caller's list otherwise. *)
Definition read_list (ref : option nat) : M (list string) := λ w,
  match ref with
  | None => Ok (default_exclude_props w, w)
  | Some l => match heap w !! l with
              | Some xs => Ok (xs, w)
              | None => Raise DanglingReference
              end
  end.

(** [exclude_props.extend(more)]. *)
Definition extend_list (ref : option nat) (more : list string) : M unit := λ w,
  match ref with
  | None =>
      Ok (tt, set_default_exclude_props (default_exclude_props w ++ more) w)
  | Some l => match heap w !! l with
              | Some xs => Ok (tt, set_heap (<[l := xs ++ more]> (heap w)) w)
              | None => Raise DanglingReference
              end
  end.

(** ** Record types *)

(** A concrete record type: its name, its [__collection_name__], and the
    fields it declares beside those of [BaseFirebaseModel], each with its
    default if it has one. *)
Record ModelClass : Type := mkClass {
  __name__ : string;
  __collection_name__ : string;
  declared : list (string * option value);
}.

(** [id], [created_at] and [updated_at], each with the default [None]. *)
Definition base_fields : list (string * option value) :=
  [("id", Some VNone); ("created_at", Some VNone); ("updated_at", Some VNone)].

(** [cls.__fields__]: a field the type declares again replaces the base's. *)
Definition __fields__ (cls : ModelClass) : list (string * option value) :=
  declared cls ++ base_fields.

Definition field_names (cls : ModelClass) : list string := (__fields__ cls).*1.

(** An instance: the values of its fields, which is also [self.dict()]. *)
Abbreviation Model := (gmap string value).

(** [self.name] for a field of the instance. *)
Definition getattr (self : Model) (name : string) : value :=
  default VNone (self !! name).

(** [setattr(self, name, v)]: a name that is no field of the type is
    refused; the value is not validated. *)
Definition setattr (cls : ModelClass) (self : Model) (name : string)
    (v : value) : Res Model :=
  if bool_decide (name ∈ field_names cls) then Ok (<[name := v]> self)
  else Raise ValueError.

(** The value a field takes from the keyword arguments [kwargs] of the
    constructor. *)
Definition field_value (kwargs : Doc) (f : string * option value)
  : option value :=
  match kwargs !! f.1 with
  | Some v => Some v
  | None => f.2
  end.

(** The constructor [cls] on keyword arguments: every field takes its argument or else its default; a
    field with neither fails the validation, and an argument that names no
    field is dropped.  The conversions between value types that the
    validation performs are outside the model: a value is kept as it is. *)
Definition construct (cls : ModelClass) (kwargs : Doc) : Res Model :=
  if forallb (λ f, bool_decide (is_Some (field_value kwargs f))) (__fields__ cls)
  then Ok (list_to_map
             (omap (λ f, pair f.1 <$> field_value kwargs f) (__fields__ cls)))
  else Raise ValidationError.

(** [string.ascii_lowercase + string.digits]. *)
Definition alphabet : string := "abcdefghijklmnopqrstuvwxyz0123456789".

Definition choice (draw : nat) : ascii :=
  default "a"%char (String.get (draw mod 36) alphabet).

(** [generate_fake_firebase_id]: twenty draws from the alphabet. *)
Definition generate_fake_firebase_id : M string := λ w,
  let id_length := 20%nat in
  Ok (string_of_list_ascii
        ((λ i, choice (rand w (rand_pos w + i)%nat)) <$> seq 0 id_length),
      set_rand_pos (rand_pos w + id_length)%nat w).

(** [if test_mode is None: test_mode = config.test_mode]. *)
Definition effective_mode (test_mode : option bool) : M bool := λ w,
  Ok (default (config_test_mode w) test_mode, w).

(** A collection or document name given to the client has to be a string. *)
Definition as_name (v : value) : Res string :=
  match v with VStr s => Ok s | _ => Raise TypeError end.

(** ** The operations of [BaseFirebaseModel] *)

Section BaseFirebaseModel.

(** [p.plural] of the [inflect] engine. *)
Variable plural : string → string.

Definition _get_collection_name (cls : ModelClass) : string :=
  if truthy (VStr (__collection_name__ cls)) then __collection_name__ cls
  else plural (__name__ cls).

(** The constructor on [id=doc.id] and the snapshot's fields other than
    [id]. *)
Definition of_snapshot (cls : ModelClass) (doc_id : string) (data : Doc)
  : Res Model :=
  construct cls (<["id" := VStr doc_id]> (base.delete "id" data)).

Definition get_by_id (cls : ModelClass) (doc_id : string)
    (test_mode : option bool) : M (option Model) :=
  let collection_name := _get_collection_name cls in
  test_mode ← effective_mode test_mode;
  w ← get_world;
  if test_mode : bool then
    match cache_handler.get_document (cache w) collection_name (VStr doc_id) with
    | Some doc_data =>
        if dict_truthy doc_data
        then m ← lift (construct cls doc_data); mret (Some m)
        else mret None
    | None => mret None
    end
  else
    let doc := firestore.get (db w) collection_name doc_id in
    if firestore.snap_exists doc then
      match firestore.to_dict doc with
      | Some data =>
          m ← lift (of_snapshot cls (firestore.snap_id doc) data); mret (Some m)
      | None => lift (Raise TypeError)
      end
    else mret None.

Definition get_by_ids (cls : ModelClass) (doc_ids : list string)
    (test_mode : option bool) : M (list Model) :=
  let collection_name := _get_collection_name cls in
  let documents := [] in
  test_mode ← effective_mode test_mode;
  w ← get_world;
  if test_mode : bool then
    for_each (λ documents doc_id,
      match cache_handler.get_document (cache w) collection_name (VStr doc_id) with
      | Some doc_data =>
          if dict_truthy doc_data
          then m ← lift (construct cls doc_data); mret (documents ++ [m])
          else mret documents
      | None => mret documents
      end) doc_ids documents
  else
    let docs := firestore.get (db w) collection_name <$> doc_ids in
    for_each (λ documents doc,
      match firestore.to_dict doc with
      | Some data =>
          if dict_truthy data
          then m ← lift (of_snapshot cls (firestore.snap_id doc) data);
               mret (documents ++ [m])
          else mret documents
      | None => mret documents
      end) docs documents.

(** The condition of the comprehension in [get_page]:
    [doc.get(key) and value in doc.get(key)] for every item. *)
Definition contains_all (array_contains : Items) (doc : Doc) : Res bool :=
  py_all (λ item : string * value,
            let field := default VNone (doc !! item.1) in
            if truthy field then py_in item.2 field else Ok false)
         array_contains.

Definition items_truthy (d : option Items) : bool :=
  match d with Some (_ :: _) => true | _ => false end.

Definition get_page (cls : ModelClass) (page page_size : Z)
    (query_params array_contains : option Items) (test_mode : option bool)
  : M (list Model) :=
  let collection_name := _get_collection_name cls in
  let start := (page - 1) * page_size in
  let end_ := start + page_size in
  test_mode ← effective_mode test_mode;
  w ← get_world;
  if test_mode : bool then
    let all_docs :=
      cache_handler.query_collection (cache w) collection_name query_params in
    all_docs ←
      (if items_truthy array_contains
       then lift (py_filter (contains_all (default [] array_contains)) all_docs)
       else mret all_docs);
    lift (mapM (construct cls) (py_slice all_docs start end_))
  else
    let query :=
      (if items_truthy query_params
       then (λ item : string * value,
               match item.2 with
               | VList choices => firestore.WhereIn item.1 choices
               | v => firestore.WhereEq item.1 v
               end) <$> default [] query_params
       else [])
      ++
      (if items_truthy array_contains
       then (λ item : string * value,
               firestore.WhereArrayContains item.1 item.2)
              <$> default [] array_contains
       else []) in
    let docs := firestore.stream (db w) collection_name query start page_size in
    lift (mapM (λ doc : string * Doc, of_snapshot cls doc.1 doc.2) docs).

Definition get_all (cls : ModelClass) (test_mode : option bool)
  : M (list Model) :=
  let collection_name := _get_collection_name cls in
  test_mode ← effective_mode test_mode;
  w ← get_world;
  if test_mode : bool then
    let all_docs := cache_handler.list_collection (cache w) collection_name in
    lift (mapM (construct cls) all_docs)
  else
    let docs := firestore.stream_all (db w) collection_name in
    lift (mapM (λ doc : string * Doc, of_snapshot cls doc.1 doc.2) docs).

(** The defaults of [get_page]: [page=1], [page_size=10]. *)
Definition default_page : Z := 1.
Definition default_page_size : Z := 10.

(** The collection that [save] writes to in live mode: the default of a
    field named [collection_name] when the type has one, the plural of the
    type's name otherwise. *)
Definition live_collection_name (cls : ModelClass) : Res string :=
  match (list_to_map (__fields__ cls) : gmap string (option value))
          !! "collection_name" with
  | Some (Some v) => if truthy v then as_name v else Ok (plural (__name__ cls))
  | _ => Ok (plural (__name__ cls))
  end.

Definition save (cls : ModelClass) (self : Model) (generate_new_id : bool)
    (test_mode : option bool) : M Model :=
  let collection_name := _get_collection_name cls in
  test_mode ← effective_mode test_mode;
  if test_mode : bool then
    document_id ←
      (if truthy (getattr self "id") then mret (getattr self "id")
       else fake ← generate_fake_firebase_id; mret (VStr fake));
    modify_world (λ w, set_cache
      (cache_handler.add_document (cache w) collection_name document_id self) w);;
    mret (<["id" := document_id]> self)
  else
    collection_name ← lift (live_collection_name cls);
    if negb (truthy (getattr self "id")) || generate_new_id then
      let data_to_save :=
        base.delete "id" (base.delete "created_at"
                            (base.delete "updated_at" self)) in
      let data_to_save := <["created_at" := VServerTimestamp]> data_to_save in
      let data_to_save := <["updated_at" := VServerTimestamp]> data_to_save in
      w ← get_world;
      new_doc ← lift (firestore.add (db w) collection_name data_to_save);
      modify_world (set_db new_doc.2);;
      mret (<["id" := VStr new_doc.1]> self)
    else
      let data_to_save := self in
      let data_to_save := <["updated_at" := VServerTimestamp]> data_to_save in
      doc_id ← lift (as_name (getattr self "id"));
      modify_world (λ w, set_db
        (firestore.set_merge (db w) collection_name doc_id data_to_save) w);;
      mret self.

Definition delete (cls : ModelClass) (self : Model) (test_mode : option bool)
  : M unit :=
  let collection_name := _get_collection_name cls in
  test_mode ← effective_mode test_mode;
  if test_mode : bool then
    modify_world (λ w, set_cache
      (cache_handler.delete_document (cache w) collection_name
         (getattr self "id")) w)
  else
    doc_id ← lift (as_name (getattr self "id"));
    modify_world (λ w, set_db (firestore.delete (db w) collection_name doc_id) w).

(** The loop of [merge], which runs before the mode is looked at and once
    more in live mode: every item whose key is not excluded is assigned. *)
Definition assign_items (cls : ModelClass) (update_data : Items)
    (exclude_props : list string) (self : Model) : M Model :=
  for_each (λ self (item : string * value),
              if bool_decide (item.1 ∈ exclude_props) then mret self
              else lift (setattr cls self item.1 item.2))
           update_data self.

Definition merge (cls : ModelClass) (self : Model) (update_data : Items)
    (overwrite_id : bool) (exclude_props : option nat)
    (test_mode : option bool) : M Model :=
  test_mode ← effective_mode test_mode;
  excluded ← read_list exclude_props;
  self ← assign_items cls update_data excluded self;
  if test_mode : bool then
    let collection_name := _get_collection_name cls in
    modify_world (λ w, set_cache
      (cache_handler.update_document (cache w) collection_name
         (getattr self "id") self) w);;
    mret self
  else
    let default_exclude :=
      if negb overwrite_id then ["id"; "created_at"] else ["created_at"] in
    extend_list exclude_props default_exclude;;
    excluded ← read_list exclude_props;
    assign_items cls update_data excluded self.

End BaseFirebaseModel.

(** * Statements *)

(** An instance of a record type has the fields of the type, and no other. *)
Definition is_instance (cls : ModelClass) (self : Model) : Prop :=
  dom self = list_to_set (field_names cls).

(** The mode a call runs in: its argument, or else the configuration. *)
Definition effective (test_mode : option bool) (w : World) : bool :=
  default (config_test_mode w) test_mode.

(** The shape of a document id of the live store: twenty characters, each
    a lowercase letter or a digit. *)
Definition is_pseudo_id (s : string) : Prop :=
  String.length s = 20%nat ∧
  Forall (λ c, c ∈ list_ascii_of_string alphabet) (list_ascii_of_string s).

(** The id that [generate_fake_firebase_id] returns in this state. *)
Definition next_fake_id (w : World) : string :=
  string_of_list_ascii
    ((λ i, choice (rand w (rand_pos w + i)%nat)) <$> seq 0 20).

(** [tags] of the document is a list that contains the value. *)
Definition has_tag (tag : value) (doc : Doc) : bool :=
  match doc !! "tags" with
  | Some (VList l) => existsb (value_eqb tag) l
  | _ => false
  end.

(** The number of pages of [n] records, [ceil(n / page_size)]. *)
Definition page_count (n : nat) (page_size : Z) : nat :=
  Z.to_nat ((Z.of_nat n + page_size - 1) / page_size).

(** What the loop of [merge] leaves of the record when every key it
    assigns is a field. *)
Definition assigned (exclude_props : list string) (update_data : Items)
    (self : Model) : Model :=
  foldl (λ self (item : string * value),
           if bool_decide (item.1 ∈ exclude_props) then self
           else <[item.1 := item.2]> self)
        self update_data.

(** The list that the live branch of [merge] appends. *)
Definition default_exclude (overwrite_id : bool) : list string :=
  if negb overwrite_id then ["id"; "created_at"] else ["created_at"].

(** The process after the live branch has extended the list. *)
Definition extended (ref : option nat) (excluded more : list string)
    (w : World) : World :=
  match ref with
  | None => set_default_exclude_props (excluded ++ more) w
  | Some l => set_heap (<[l := excluded ++ more]> (heap w)) w
  end.

(** What [save] hands to [add] for a new document: the fields of the
    record other than [id], with the sentinel in both timestamps. *)
Definition insert_payload (self : Model) : Doc :=
  <["updated_at" := VServerTimestamp]>
    (<["created_at" := VServerTimestamp]>
       (base.delete "id"
          (base.delete "created_at" (base.delete "updated_at" self)))).

Section Statements.

Variable plural : string → string.

(** The id has no document in the store of the mode. *)
Definition absent_from_store (cls : ModelClass) (doc_id : string)
    (test_mode : option bool) (w : World) : Prop :=
  if effective test_mode w
  then cache_handler.get_document (cache w) (_get_collection_name plural cls)
         (VStr doc_id) = None
  else firestore.docs (db w) !! _get_collection_name plural cls
         ≫= (.!! doc_id) = None.

(** The documents that [get_by_ids] finds for the ids of the list in the
    cache, in the order of the list: an id contributes the document its
    lookup returns when that is true, and nothing when the lookup returns
    [None] or an empty document. *)
Definition found_documents (cls : ModelClass) (doc_ids : list string)
    (w : World) : list Doc :=
  omap (λ doc_id,
          match cache_handler.get_document (cache w)
                  (_get_collection_name plural cls) (VStr doc_id) with
          | Some doc_data => if dict_truthy doc_data then Some doc_data else None
          | None => None
          end) doc_ids.

(** The document that [save] left in the store of the mode under an id. *)
Definition stored_document (cls : ModelClass) (test_mode : bool) (w : World)
    (doc_id : value) : option Doc :=
  if test_mode
  then cache_handler.get_document (cache w) (_get_collection_name plural cls)
         doc_id
  else match live_collection_name plural cls, doc_id with
       | Ok name, VStr s => firestore.docs (db w) !! name ≫= (.!! s)
       | _, _ => None
       end.

(** The documents of the collection that pass the filters of [get_page],
    in the order of the collection. *)
Definition filtered_docs (cls : ModelClass)
    (query_params array_contains : option Items) (w : World)
  : Res (list Doc) :=
  let all_docs :=
    cache_handler.query_collection (cache w) (_get_collection_name plural cls)
      query_params in
  if items_truthy array_contains
  then py_filter (contains_all (default [] array_contains)) all_docs
  else Ok all_docs.

(** The records of pages [first], [first + 1], ..., [first + n - 1], one
    after the other. *)
Fixpoint get_pages (cls : ModelClass) (first : Z) (n : nat) (page_size : Z)
    (query_params array_contains : option Items) (test_mode : option bool)
  : M (list Model) :=
  match n with
  | O => mret []
  | S n' =>
      here ← get_page plural cls first page_size query_params array_contains
               test_mode;
      rest ← get_pages cls (first + 1) n' page_size query_params
               array_contains test_mode;
      mret (here ++ rest)
  end.

(** The array-contains filter as the specification words it: the call with
    the defaults of [page] and [page_size] returns the records of exactly
    the documents whose [tags] contains the value. *)
Definition array_contains_returns_subset (cls : ModelClass) (tag : value)
    (w : World) : Prop :=
  ∀ records w',
    get_page plural cls default_page default_page_size None
      (Some [("tags", tag)]) (Some true) w = Ok (records, w') →
    Ok records =
      mapM (construct cls)
        (List.filter (has_tag tag)
           (cache_handler.list_collection (cache w)
              (_get_collection_name plural cls))).

End Statements.

(** ** A record type and a process to run the operations on *)

(** A plural that adds an "s". *)
Definition add_s (name : string) : string := name +:+ "s".

(** [class Item(BaseFirebaseModel): name: str; tags: List[str] = []]. *)
Definition Item : ModelClass :=
  mkClass "Item" "" [("name", None); ("tags", Some (VList []))].

(** [Item(name="a")], before any save. *)
Definition new_item : Model :=
  list_to_map [("id", VNone); ("created_at", VNone); ("updated_at", VNone);
               ("name", VStr "a"); ("tags", VList [])].

(** [Item(id="a1", name="a")]. *)
Definition item_a1 : Model := <["id" := VStr "a1"]> new_item.

(** A live store without documents, at time 100, whose generated ids are
    "doc", "docx", "docxx", ... *)
Definition empty_store : firestore.client :=
  firestore.Client ∅ 100
    (λ n, "doc" +:+ string_of_list_ascii (replicate n "x"%char)) 0.

(** A process that has just started: nothing cached, nothing stored, no
    draw taken, the default of [exclude_props] still empty. *)
Definition start (test_mode : bool) : World :=
  mkWorld test_mode ∅ empty_store (λ n, n) 0 [] ∅.

(** Eleven documents tagged "red", under the ids "x", "xx", ... *)
Definition red_docs : Collection :=
  (λ n, (VStr (string_of_list_ascii (replicate (S n) "x"%char)),
         <["tags" := VList [VStr "red"]]> new_item)) <$> seq 0 11.

Definition red_world : World :=
  mkWorld true {["Items" := red_docs]} empty_store (λ n, n) 0 [] ∅.

(** [Item(id=doc_id, name=name)] as a document. *)
Definition item_doc (doc_id name : string) : Doc :=
  <["id" := VStr doc_id]> (<["name" := VStr name]> new_item).

(** A cache with two items and an empty document. *)
Definition shelf : Collection :=
  [(VStr "a1", item_doc "a1" "apple"); (VStr "b2", item_doc "b2" "bread");
   (VStr "e0", ∅)].

Definition shelf_world : World :=
  mkWorld true {["Items" := shelf]} empty_store (λ n, n) 0 [] ∅.

(** A live store that holds one item under the id "k1", whose own [id]
    field says "other". *)
Definition stocked_store : firestore.client :=
  firestore.Client {["Items" := {["k1" := item_doc "other" "apple"]}]} 100
    (λ n, "doc" +:+ string_of_list_ascii (replicate n "x"%char)) 0.

Definition stocked : World :=
  mkWorld false ∅ stocked_store (λ n, n) 0 [] ∅.

(** [class Gadget(BaseFirebaseModel): __collection_name__ = "things";
    name: str], and [Gadget(name="g")]. *)
Definition Gadget : ModelClass := mkClass "Gadget" "things" [("name", None)].

Definition new_gadget : Model :=
  list_to_map [("id", VNone); ("created_at", VNone); ("updated_at", VNone);
               ("name", VStr "g")].

(** A cache whose one item holds a number where its tags should be. *)
Definition odd_world : World :=
  mkWorld true {["Items" := [(VStr "n1", <["tags" := VInt 3]> new_item)]]}
    empty_store (λ n, n) 0 [] ∅.

(** * Properties *)

(** ** Values and dictionaries *)

Lemma value_ind' (P : value → Prop) :
  P VNone → (∀ n, P (VInt n)) → (∀ s, P (VStr s)) → (∀ t, P (VTime t)) →
  (∀ l, Forall P l → P (VList l)) → P VServerTimestamp → ∀ v, P v.
Proof.
  intros HNone HInt HStr HTime HList HSent.
  fix IH 1. intros [ | n | s | t | l | ].
  - exact HNone.
  - apply HInt.
  - apply HStr.
  - apply HTime.
  - apply HList. induction l as [|x l IHl]; constructor; [apply IH | exact IHl].
  - exact HSent.
Qed.

Lemma value_eqb_eq (a b : value) : value_eqb a b = true ↔ a = b.
Proof.
  revert b. induction a as [ | n | s | t | l IHl | ] using value_ind';
    intros [ | m | s' | t' | k | ]; simpl; try (split; [discriminate | congruence]);
    try (split; congruence).
  - rewrite Z.eqb_eq. split; congruence.
  - rewrite String.eqb_eq. split; congruence.
  - rewrite Z.eqb_eq. split; congruence.
  - revert k. induction IHl as [|x l Hx _ IH]; intros [|y k]; simpl;
      try (split; [discriminate | congruence]); try (split; congruence).
    rewrite andb_true_iff, Hx, IH. split; [intros [-> H]; congruence | intros [= -> ->]; auto].
Qed.

Lemma value_eqb_refl (a : value) : value_eqb a a = true.
Proof. by apply value_eqb_eq. Qed.

Lemma value_eqb_ne (a b : value) : a ≠ b → value_eqb a b = false.
Proof.
  intros Hne. destruct (value_eqb a b) eqn:E; [|done].
  by apply value_eqb_eq in E.
Qed.

Section dict.
Context {V : Type}.
Implicit Types (d : list (value * V)) (k : value) (v : V).

Lemma dict_get_set_eq d k v : dict_get k (dict_set k v d) = Some v.
Proof.
  induction d as [|[k' v'] d IH]; simpl.
  - by rewrite value_eqb_refl.
  - destruct (value_eqb k' k) eqn:E; simpl; by rewrite E.
Qed.

Lemma dict_get_set_ne d k k' v :
  k ≠ k' → dict_get k' (dict_set k v d) = dict_get k' d.
Proof.
  intros Hne. induction d as [|[k0 v0] d IH]; simpl.
  - by rewrite value_eqb_ne.
  - destruct (value_eqb k0 k) eqn:E; simpl; [|by rewrite IH].
    apply value_eqb_eq in E as ->. by rewrite value_eqb_ne.
Qed.

End dict.

(** ** The cache handler *)

Lemma get_document_add_document c name doc_id data :
  cache_handler.get_document (cache_handler.add_document c name doc_id data)
    name doc_id = Some data.
Proof.
  unfold cache_handler.get_document, cache_handler.add_document,
    cache_handler.collection.
  rewrite lookup_insert_eq. simpl. apply dict_get_set_eq.
Qed.

(** ** Instances and their construction *)

Lemma is_instance_lookup cls self k :
  is_instance cls self → is_Some (self !! k) ↔ k ∈ field_names cls.
Proof.
  unfold is_instance. intros H. rewrite <- elem_of_dom, H.
  apply elem_of_list_to_set.
Qed.

Lemma lookup_collected (kwargs : Doc) (fs : list (string * option value)) k :
  (∀ f, f ∈ fs → is_Some (kwargs !! f.1)) →
  (list_to_map (omap (λ f, pair f.1 <$> field_value kwargs f) fs) : Doc) !! k
  = if decide (k ∈ fs.*1) then kwargs !! k else None.
Proof.
  induction fs as [|f fs IH]; intros Hfs.
  - done.
  - destruct (Hfs f) as [v Hv]; [apply list_elem_of_here|].
    simpl. unfold field_value at 1. rewrite Hv. simpl.
    destruct (decide (f.1 = k)) as [<-|Hne].
    + rewrite lookup_insert_eq. rewrite decide_True; [done | apply list_elem_of_here].
    + rewrite lookup_insert_ne by done.
      etrans; [apply IH; intros; apply Hfs; by apply list_elem_of_further|].
      change (list_fmap _ _ fst fs) with (fs.*1).
      destruct (decide (k ∈ fs.*1)) as [Hin|Hin].
      * rewrite decide_True; [done | by apply list_elem_of_further].
      * rewrite decide_False; [done|].
        intros [->|?]%elem_of_cons; done.
Qed.

Lemma construct_instance cls self :
  is_instance cls self → construct cls self = Ok self.
Proof.
  intros Hinst. unfold construct.
  assert (Hfs : ∀ f, f ∈ __fields__ cls → is_Some (self !! f.1)).
  { intros f Hf. apply (is_instance_lookup cls); [done|].
    unfold field_names. apply list_elem_of_fmap. eauto. }
  rewrite (proj2 (forallb_forall _ _)).
  - f_equal. apply map_eq. intros k. rewrite lookup_collected by done.
    case_decide as Hk; [done|].
    destruct (self !! k) eqn:E; [|done].
    exfalso. apply Hk. apply (is_instance_lookup cls self); eauto.
  - intros f Hf%list_elem_of_In. apply bool_decide_eq_true.
    destruct (Hfs f Hf) as [v Hv]. unfold field_value. rewrite Hv. eauto.
Qed.

Lemma is_instance_insert cls self k v :
  is_instance cls self → k ∈ field_names cls → is_instance cls (<[k := v]> self).
Proof.
  unfold is_instance. intros H Hk. rewrite dom_insert_L, H.
  apply subseteq_union_1_L, singleton_subseteq_l. by apply elem_of_list_to_set.
Qed.

Lemma dict_truthy_instance cls self : is_instance cls self → dict_truthy self = true.
Proof.
  intros H. unfold dict_truthy. rewrite bool_decide_eq_false_2; [done|].
  intros ->. 
  assert (is_Some ((∅ : Doc) !! "id")) as [? Hx]; [|by rewrite lookup_empty in Hx].
  apply (is_instance_lookup cls); [done|].
  apply list_elem_of_fmap. exists ("id", Some VNone). split; [done|].
  apply elem_of_app. right. apply list_elem_of_here.
Qed.

(** ** Running a call *)
Ltac run_m :=
  cbv beta iota zeta delta
    [mbind mret M_bind M_ret effective_mode get_world modify_world lift].

(** ** Save, then fetch *)

Section RoundTrip.
Variable plural : string → string.

Lemma save_test_mode_new cls self g tm w :
  effective tm w = true → truthy (getattr self "id") = false →
  save plural cls self g tm w =
  Ok (<["id" := VStr (next_fake_id w)]> self,
      set_cache
        (cache_handler.add_document (cache w) (_get_collection_name plural cls)
           (VStr (next_fake_id w)) self)
        (set_rand_pos (rand_pos w + 20) w)).
Proof.
  unfold effective. intros Hmode Hid.
  unfold save. run_m. rewrite Hmode, Hid. reflexivity.
Qed.

Lemma save_test_mode_known cls self g tm w :
  effective tm w = true → truthy (getattr self "id") = true →
  save plural cls self g tm w =
  Ok (<["id" := getattr self "id"]> self,
      set_cache
        (cache_handler.add_document (cache w) (_get_collection_name plural cls)
           (getattr self "id") self) w).
Proof.
  unfold effective. intros Hmode Hid.
  unfold save. run_m. rewrite Hmode, Hid. reflexivity.
Qed.

Lemma get_by_id_test_mode_stored cls doc_id tm w d :
  effective tm w = true → is_instance cls d →
  cache_handler.get_document (cache w) (_get_collection_name plural cls)
    (VStr doc_id) = Some d →
  get_by_id plural cls doc_id tm w = Ok (Some d, w).
Proof.
  unfold effective. intros Hmode Hinst Hget.
  unfold get_by_id. run_m. rewrite Hmode, Hget.
  rewrite (dict_truthy_instance cls) by done.
  by rewrite construct_instance.
Qed.

Lemma save_then_get_by_id_test_mode cls self g tm w :
  is_instance cls self →
  truthy (getattr self "id") = false →
  effective tm w = true →
  ∃ w',
    save plural cls self g tm w
    = Ok (<["id" := VStr (next_fake_id w)]> self, w') ∧
    get_by_id plural cls (next_fake_id w) tm w' = Ok (Some self, w').
Proof.
  intros Hinst Hid Hmode. eexists. split; [by apply save_test_mode_new|].
  apply get_by_id_test_mode_stored; [done..|].
  simpl. apply get_document_add_document.
Qed.

End RoundTrip.

Lemma new_item_is_instance : is_instance Item new_item.
Proof.
  unfold is_instance, new_item. rewrite dom_list_to_map_L.
  apply set_eq. intros k. rewrite !elem_of_list_to_set.
  change (field_names Item)
    with ["name"; "tags"; "id"; "created_at"; "updated_at"].
  cbn [fmap list_fmap fst].
  rewrite !elem_of_cons, !elem_of_nil. tauto.
Qed.

(** C1 (code bug): in test mode, [Item(name="a")] saved and then fetched
    by the id the save assigned comes back as it was before the save: its
    [id], its [created_at] and its [updated_at] are all [None].  The fetched
    record differs from the saved one in [id], and no timestamp is
    populated. *)
Theorem save_then_get_by_id_test_mode_unstamped :
  ∃ doc_id saved w' fetched,
    save add_s Item new_item false (Some true) (start true) = Ok (saved, w') ∧
    getattr saved "id" = VStr doc_id ∧
    get_by_id add_s Item doc_id (Some true) w' = Ok (Some fetched, w') ∧
    getattr fetched "id" = VNone ∧
    getattr fetched "created_at" = VNone ∧
    getattr fetched "updated_at" = VNone.
Proof.
  destruct (save_then_get_by_id_test_mode add_s Item new_item false
              (Some true) (start true) new_item_is_instance eq_refl eq_refl)
    as (w' & Hsave & Hget).
  eexists (next_fake_id (start true)), _, w', new_item.
  split; [exact Hsave|].
  split; [unfold getattr; by rewrite lookup_insert_eq|].
  split; [exact Hget|].
  by repeat split.
Qed.

(** ** Fetching by id *)

Section Fetch.
Variable plural : string → string.

(** C8: in either mode, [get_by_id] on an id that has no document in the
    store returns [None]; it does not raise, and leaves the process state
    as it was. *)
Theorem get_by_id_absent_returns_none cls doc_id test_mode w :
  absent_from_store plural cls doc_id test_mode w →
  get_by_id plural cls doc_id test_mode w = Ok (None, w).
Proof.
  unfold absent_from_store, effective. intros H.
  unfold get_by_id. run_m.
  destruct (default (config_test_mode w) test_mode).
  - by rewrite H.
  - unfold firestore.get. by rewrite H.
Qed.

Lemma get_by_ids_loop cls doc_ids w documents :
  for_each (λ documents doc_id,
      match cache_handler.get_document (cache w)
              (_get_collection_name plural cls) (VStr doc_id) with
      | Some doc_data =>
          if dict_truthy doc_data
          then m ← lift (construct cls doc_data); mret (documents ++ [m])
          else mret documents
      | None => mret documents
      end) doc_ids documents w
  = match mapM (construct cls) (found_documents plural cls doc_ids w) with
    | Ok found => Ok (documents ++ found, w)
    | Raise e => Raise e
    end.
Proof.
  revert documents.
  induction doc_ids as [|doc_id doc_ids IH]; intros documents.
  - simpl. run_m. by rewrite app_nil_r.
  - unfold found_documents; simpl. run_m.
    destruct (cache_handler.get_document _ _ (VStr doc_id)) as [d|] eqn:Hd;
      [destruct (dict_truthy d) eqn:Ht|].
    + simpl. destruct (construct cls d) as [m|e]; [|done].
      rewrite IH. unfold found_documents; simpl.
      destruct (mapM _ _); [|done].
      by rewrite <- app_assoc.
    + apply IH.
    + apply IH.
Qed.

(** C10: in test mode, [get_by_ids] returns the records of the documents
    it finds for the ids, in the order of the ids in the list; an id whose
    lookup finds nothing is left out without a failure. *)
Theorem get_by_ids_test_mode_keeps_order cls doc_ids test_mode w :
  effective test_mode w = true →
  get_by_ids plural cls doc_ids test_mode w
  = lift (mapM (construct cls) (found_documents plural cls doc_ids w)) w.
Proof.
  unfold effective. intros Hmode.
  unfold get_by_ids. run_m. rewrite Hmode.
  rewrite get_by_ids_loop.
  by destruct (mapM _ _).
Qed.

End Fetch.

Lemma get_by_id_absent_returns_none_witness :
  get_by_id add_s Item "nope" None (start true) = Ok (None, start true) ∧
  get_by_id add_s Item "nope" None (start false) = Ok (None, start false).
Proof.
  split; apply get_by_id_absent_returns_none; reflexivity.
Defined.

Lemma get_by_ids_test_mode_keeps_order_witness :
  get_by_ids add_s Item ["b2"; "nope"; "e0"; "a1"] None shelf_world
  = lift (mapM (construct Item)
            (found_documents add_s Item ["b2"; "nope"; "e0"; "a1"]
               shelf_world))
      shelf_world.
Proof.
  apply get_by_ids_test_mode_keeps_order. reflexivity.
Defined.

(** ** Pages *)

Lemma py_slice_window {A : Type} (l : list A) (start stop : Z) :
  0 ≤ start ≤ stop →
  py_slice l start stop
  = take (Z.to_nat (stop - start)) (drop (Z.to_nat start) l).
Proof.
  intros [Hlo Hhi]. unfold py_slice, slice_bound.
  rewrite (proj2 (Z.ltb_ge start 0)) by done.
  rewrite (proj2 (Z.ltb_ge stop 0)) by lia.
  destruct (Z.le_gt_cases start (Z.of_nat (length l))) as [Hin|Hout].
  - rewrite (Z.min_l start) by done.
    destruct (Z.le_gt_cases stop (Z.of_nat (length l))) as [Hin'|Hout'].
    + by rewrite (Z.min_l stop).
    + rewrite (Z.min_r stop) by lia.
      rewrite !take_ge; [done|rewrite length_drop; lia..].
  - rewrite (Z.min_r start), (Z.min_r stop) by lia.
    rewrite Z.sub_diag, take_0, drop_ge by lia. by rewrite take_nil.
Qed.

Lemma mapM_Res_app {A B : Type} (f : A → Res B) (l k : list A) :
  mapM f (l ++ k) = a ← mapM f l; b ← mapM f k; mret (a ++ b).
Proof.
  induction l as [|x l IH]; simpl.
  - by destruct (mapM f k).
  - destruct (f x); simpl; [|done]. rewrite IH.
    destruct (mapM f l); simpl; [|done]. by destruct (mapM f k).
Qed.

Lemma py_filter_total {A : Type} (p : A → Res bool) (q : A → bool) (l : list A) :
  Forall (λ x, p x = Ok (q x)) l → py_filter p l = Ok (List.filter q l).
Proof.
  induction 1 as [|x l Hx _ IH]; simpl; [done|].
  rewrite Hx, IH. simpl. by destruct (q x).
Qed.

Section Paging.
Variable plural : string → string.

Lemma get_page_test_mode cls page page_size qp ac tm w docs :
  effective tm w = true →
  filtered_docs plural cls qp ac w = Ok docs →
  get_page plural cls page page_size qp ac tm w
  = lift (mapM (construct cls)
            (py_slice docs ((page - 1) * page_size)
               ((page - 1) * page_size + page_size))) w.
Proof.
  unfold effective, filtered_docs. intros Hmode Hdocs.
  unfold get_page. run_m. rewrite Hmode.
  destruct (items_truthy ac).
  - by rewrite Hdocs.
  - by injection Hdocs as <-.
Qed.

Lemma get_page_test_mode_window cls page page_size qp ac tm w docs :
  1 ≤ page → 0 ≤ page_size →
  effective tm w = true →
  filtered_docs plural cls qp ac w = Ok docs →
  get_page plural cls page page_size qp ac tm w
  = lift (mapM (construct cls)
            (take (Z.to_nat page_size)
               (drop (Z.to_nat (page - 1) * Z.to_nat page_size) docs))) w.
Proof.
  intros Hpage Hsize Hmode Hdocs.
  rewrite (get_page_test_mode _ _ _ _ _ _ _ docs) by done.
  rewrite py_slice_window by nia.
  rewrite <- Z2Nat.inj_mul by lia.
  do 3 f_equal; f_equal; lia.
Qed.

Lemma get_pages_test_mode cls first n page_size qp ac tm w docs :
  1 ≤ first → 0 ≤ page_size →
  effective tm w = true →
  filtered_docs plural cls qp ac w = Ok docs →
  get_pages plural cls first n page_size qp ac tm w
  = lift (mapM (construct cls)
            (take (n * Z.to_nat page_size)
               (drop (Z.to_nat (first - 1) * Z.to_nat page_size) docs))) w.
Proof.
  intros Hfirst Hsize Hmode Hdocs. revert first Hfirst.
  induction n as [|n IH]; intros first Hfirst.
  - done.
  - simpl get_pages. run_m.
    rewrite (get_page_test_mode_window _ _ _ _ _ _ _ docs) by done. run_m.
    replace (S n * Z.to_nat page_size)%nat
      with (Z.to_nat page_size + n * Z.to_nat page_size)%nat by lia.
    rewrite <- take_take_drop, drop_drop, mapM_Res_app.
    destruct (mapM _ (take (Z.to_nat page_size) _)) as [here|e]; simpl; [|done].
    rewrite IH by lia. run_m.
    replace (Z.to_nat (first + 1 - 1) * Z.to_nat page_size)%nat
      with (Z.to_nat (first - 1) * Z.to_nat page_size + Z.to_nat page_size)%nat
      by nia.
    by destruct (mapM _ _).
Qed.

Lemma get_page_filter_raises cls page page_size qp ac tm w e :
  effective tm w = true →
  filtered_docs plural cls qp ac w = Raise e →
  get_page plural cls page page_size qp ac tm w = Raise e.
Proof.
  unfold effective, filtered_docs. intros Hmode Hdocs.
  unfold get_page. run_m. rewrite Hmode.
  destruct (items_truthy ac); [by rewrite Hdocs | done].
Qed.

Lemma get_pages_test_mode_all cls page_size qp ac tm w docs :
  1 ≤ page_size →
  effective tm w = true →
  filtered_docs plural cls qp ac w = Ok docs →
  get_pages plural cls 1 (page_count (length docs) page_size) page_size
    qp ac tm w
  = lift (mapM (construct cls) docs) w.
Proof.
  intros Hsize Hmode Hdocs.
  rewrite (get_pages_test_mode _ _ _ _ _ _ _ _ docs) by (done || lia).
  change (Z.to_nat (1 - 1) * Z.to_nat page_size)%nat with 0%nat.
  rewrite drop_0, take_ge; [done|].
  unfold page_count.
  pose proof (Z.div_mod (Z.of_nat (length docs) + page_size - 1) page_size).
  pose proof (Z.mod_pos_bound (Z.of_nat (length docs) + page_size - 1)
                page_size).
  assert (0 ≤ (Z.of_nat (length docs) + page_size - 1) / page_size)
    by (apply Z.div_pos; lia).
  rewrite <- Z2Nat.inj_mul by lia.
  apply Nat2Z.inj_le. rewrite Z2Nat.id by nia. nia.
Qed.


Lemma contains_all_tags tag doc l :
  doc !! "tags" = Some (VList l) →
  contains_all [("tags", tag)] doc = Ok (has_tag tag doc).
Proof.
  intros Htags. unfold contains_all, has_tag. simpl. rewrite Htags. simpl.
  destruct l as [|x l]; simpl; [done|].
  by destruct (value_eqb tag x || existsb (value_eqb tag) l).
Qed.

Lemma filtered_docs_tags cls tag w :
  Forall (λ doc : Doc, ∃ l, doc !! "tags" = Some (VList l))
    (cache_handler.list_collection (cache w)
       (_get_collection_name plural cls)) →
  filtered_docs plural cls None (Some [("tags", tag)]) w
  = Ok (List.filter (has_tag tag)
          (cache_handler.list_collection (cache w)
             (_get_collection_name plural cls))).
Proof.
  intros Hlists. unfold filtered_docs. simpl.
  apply py_filter_total.
  eapply Forall_impl; [exact Hlists|].
  intros doc [l Hl]. by apply (contains_all_tags _ _ l).
Qed.

(** C7 (amended): in test mode, when [tags] holds a list in every document
    of the collection, [get_page] with [array_contains = {"tags": tag}]
    returns the records of one page of the documents whose [tags] contains
    the value: the first [page_size] of them after those of the earlier
    pages, in the order of the collection. *)
Theorem get_page_array_contains_tags cls tag page page_size tm w :
  1 ≤ page → 0 ≤ page_size →
  effective tm w = true →
  Forall (λ doc : Doc, ∃ l, doc !! "tags" = Some (VList l))
    (cache_handler.list_collection (cache w)
       (_get_collection_name plural cls)) →
  get_page plural cls page page_size None (Some [("tags", tag)]) tm w
  = lift (mapM (construct cls)
            (take (Z.to_nat page_size)
               (drop (Z.to_nat (page - 1) * Z.to_nat page_size)
                  (List.filter (has_tag tag)
                     (cache_handler.list_collection (cache w)
                        (_get_collection_name plural cls)))))) w.
Proof.
  intros Hpage Hsize Hmode Hlists.
  apply get_page_test_mode_window; [done..|].
  by apply filtered_docs_tags.
Qed.

End Paging.

Lemma red_world_collection :
  cache_handler.list_collection (cache red_world)
    (_get_collection_name add_s Item) = red_docs.*2.
Proof.
  unfold cache_handler.list_collection, cache_handler.collection.
  change (_get_collection_name add_s Item) with "Items".
  change (cache red_world) with ({["Items" := red_docs]} : cache_handler.t).
  by rewrite lookup_singleton_eq.
Qed.

Lemma red_world_tags_are_lists :
  Forall (λ doc : Doc, ∃ l, doc !! "tags" = Some (VList l))
    (cache_handler.list_collection (cache red_world)
       (_get_collection_name add_s Item)).
Proof.
  rewrite red_world_collection. unfold red_docs.
  rewrite !Forall_fmap. apply Forall_forall. intros n _.
  eexists. apply lookup_insert_eq.
Qed.


Lemma get_page_array_contains_tags_witness :
  get_page add_s Item 2 4 None (Some [("tags", VStr "red")]) None red_world
  = lift (mapM (construct Item)
            (take (Z.to_nat 4)
               (drop (Z.to_nat (2 - 1) * Z.to_nat 4)
                  (List.filter (has_tag (VStr "red"))
                     (cache_handler.list_collection (cache red_world)
                        (_get_collection_name add_s Item)))))) red_world.
Proof.
  apply get_page_array_contains_tags.
  - lia.
  - lia.
  - reflexivity.
  - apply red_world_tags_are_lists.
Defined.

Lemma default_page_cuts_the_subset :
  ¬ array_contains_returns_subset add_s Item (VStr "red") red_world.
Proof.
  intros Hstated.
  pose proof (Hstated _ _ eq_refl) as Heq.
  apply (f_equal (λ r : Res (list Model),
                    match r with Ok l => length l | Raise _ => 0%nat end))
    in Heq.
  vm_compute in Heq. discriminate.
Qed.

(** ** Merge *)

Lemma assign_items_fields cls update_data exclude_props self w :
  Forall (λ item : string * value,
            item.1 ∈ exclude_props ∨ item.1 ∈ field_names cls) update_data →
  assign_items cls update_data exclude_props self w
  = Ok (assigned exclude_props update_data self, w).
Proof.
  unfold assign_items, assigned. intros Hfields. revert self.
  induction Hfields as [|item items Hitem _ IH]; intros self; [done|].
  simpl. run_m. case_bool_decide as Hex.
  - apply IH.
  - destruct Hitem as [?|Hfield]; [done|].
    unfold setattr. rewrite bool_decide_eq_true_2 by done. apply IH.
Qed.


Section Merge.
Variable plural : string → string.

Lemma read_list_extended ref excluded more w :
  read_list ref (extended ref excluded more w)
  = Ok (excluded ++ more, extended ref excluded more w).
Proof.
  destruct ref as [l|]; simpl; [|done].
  unfold read_list. simpl. by rewrite lookup_insert_eq.
Qed.

Lemma extend_list_extended ref excluded more w :
  read_list ref w = Ok (excluded, w) →
  extend_list ref more w = Ok (tt, extended ref excluded more w).
Proof.
  unfold read_list, extend_list. destruct ref as [l|]; simpl.
  - destruct (heap w !! l); [|done]. by intros [= ->].
  - by intros [= <-].
Qed.

Lemma merge_live cls self update_data overwrite_id ref tm w excluded :
  effective tm w = false →
  read_list ref w = Ok (excluded, w) →
  Forall (λ item : string * value,
            item.1 ∈ excluded ∨ item.1 ∈ field_names cls) update_data →
  merge plural cls self update_data overwrite_id ref tm w
  = Ok (assigned (excluded ++ default_exclude overwrite_id) update_data
          (assigned excluded update_data self),
        extended ref excluded (default_exclude overwrite_id) w).
Proof.
  unfold effective. intros Hmode Hread Hfields.
  unfold merge. run_m. rewrite Hmode, Hread.
  rewrite assign_items_fields by done.
  fold (default_exclude overwrite_id).
  rewrite (extend_list_extended _ excluded) by done.
  rewrite read_list_extended.
  rewrite assign_items_fields; [done|].
  eapply Forall_impl; [exact Hfields|].
  intros item [?|?]; [left; apply elem_of_app|right]; auto.
Qed.


End Merge.


(** C2 (code bug): in live mode, in a process whose default
    [exclude_props] is still empty, [merge({"id": "x"})] on
    [Item(id="a1", name="a")] with [overwrite_id] false sets the id of the
    record to "x": the first loop assigns it before "id" is excluded.  With
    [overwrite_id] true the id is set to "x" as well. *)
Theorem merge_live_overwrites_id :
  (∃ w', merge add_s Item item_a1 [("id", VStr "x")] false None (Some false)
           (start false)
         = Ok (<["id" := VStr "x"]> item_a1, w')) ∧
  (∃ w', merge add_s Item item_a1 [("id", VStr "x")] true None (Some false)
           (start false)
         = Ok (<["id" := VStr "x"]> item_a1, w')).
Proof.
  assert (Hfield : Forall (λ item : string * value,
                             item.1 ∈ [] ∨ item.1 ∈ field_names Item)
                     [("id", VStr "x")]).
  { constructor; [|done]. right. simpl.
    apply list_elem_of_fmap. exists ("id", Some VNone). split; [done|].
    apply elem_of_app. right. apply list_elem_of_here. }
  split; eexists.
  - rewrite (merge_live _ _ _ _ _ _ _ _ []) by done.
    unfold assigned. simpl. reflexivity.
  - rewrite (merge_live _ _ _ _ _ _ _ _ []) by done.
    unfold assigned. simpl. rewrite insert_insert_eq. reflexivity.
Qed.

(** ** The live store *)

Lemma docs_write db name doc_id d :
  firestore.docs (firestore.write db name doc_id d) !! name ≫= (.!! doc_id)
  = Some d.
Proof.
  unfold firestore.write. simpl. rewrite lookup_insert_eq. simpl.
  apply lookup_insert_eq.
Qed.

Lemma add_fresh db name data :
  firestore.docs db !! name
    ≫= (.!! firestore.auto_id db (firestore.auto_pos db)) = None →
  firestore.add db name data
  = Ok (firestore.auto_id db (firestore.auto_pos db),
        firestore.write
          (firestore.Client (firestore.docs db) (firestore.now db)
             (firestore.auto_id db) (S (firestore.auto_pos db)))
          name (firestore.auto_id db (firestore.auto_pos db))
          (firestore.stamp (firestore.now db) <$> data)).
Proof.
  intros Hfresh. unfold firestore.add, firestore.get. simpl.
  by rewrite Hfresh.
Qed.

(** ** Save *)

Section Save.
Variable plural : string → string.

Lemma save_live_insert cls self g tm w name :
  effective tm w = false →
  live_collection_name plural cls = Ok name →
  negb (truthy (getattr self "id")) || g = true →
  firestore.docs (db w) !! name
    ≫= (.!! firestore.auto_id (db w) (firestore.auto_pos (db w))) = None →
  save plural cls self g tm w
  = Ok (<["id" := VStr (firestore.auto_id (db w) (firestore.auto_pos (db w)))]>
          self,
        set_db
          (firestore.write
             (firestore.Client (firestore.docs (db w)) (firestore.now (db w))
                (firestore.auto_id (db w)) (S (firestore.auto_pos (db w))))
             name (firestore.auto_id (db w) (firestore.auto_pos (db w)))
             (firestore.stamp (firestore.now (db w)) <$> insert_payload self))
          w).
Proof.
  unfold effective. intros Hmode Hname Hinsert Hfresh.
  unfold save. run_m. rewrite Hmode, Hname, Hinsert.
  fold (insert_payload self). by rewrite add_fresh.
Qed.

Lemma save_live_update cls self tm w name doc_id :
  effective tm w = false →
  live_collection_name plural cls = Ok name →
  getattr self "id" = VStr doc_id → doc_id ≠ "" →
  save plural cls self false tm w
  = Ok (self,
        set_db (firestore.set_merge (db w) name doc_id
                  (<["updated_at" := VServerTimestamp]> self)) w).
Proof.
  unfold effective. intros Hmode Hname Hid Hne.
  unfold save. run_m. rewrite Hmode, Hname, Hid. simpl.
  apply String.eqb_neq in Hne. by rewrite Hne.
Qed.

Lemma merge_test_mode cls self update_data overwrite_id ref tm w excluded :
  effective tm w = true →
  read_list ref w = Ok (excluded, w) →
  Forall (λ item : string * value,
            item.1 ∈ excluded ∨ item.1 ∈ field_names cls) update_data →
  merge plural cls self update_data overwrite_id ref tm w
  = Ok (assigned excluded update_data self,
        set_cache
          (cache_handler.update_document (cache w)
             (_get_collection_name plural cls)
             (getattr (assigned excluded update_data self) "id")
             (assigned excluded update_data self)) w).
Proof.
  unfold effective. intros Hmode Hread Hfields.
  unfold merge. run_m. rewrite Hmode, Hread.
  by rewrite assign_items_fields.
Qed.

End Save.

Lemma Item_live_collection_name : live_collection_name add_s Item = Ok "Items".
Proof. reflexivity. Qed.

Lemma stamped_insert_payload t self k :
  (firestore.stamp t <$> insert_payload self) !! k
  = if decide (k = "updated_at") then Some (VTime t)
    else if decide (k = "created_at") then Some (VTime t)
    else if decide (k = "id") then None
    else firestore.stamp t <$> self !! k.
Proof.
  unfold insert_payload. rewrite lookup_fmap.
  destruct (decide (k = "updated_at")) as [->|?];
    [by rewrite lookup_insert_eq|rewrite lookup_insert_ne by done].
  destruct (decide (k = "created_at")) as [->|?];
    [by rewrite lookup_insert_eq|rewrite lookup_insert_ne by done].
  destruct (decide (k = "id")) as [->|?];
    [by rewrite lookup_delete_eq|by rewrite !lookup_delete_ne].
Qed.

(** ** Generated ids *)

Lemma choice_in_alphabet (draw : nat) :
  choice draw ∈ list_ascii_of_string alphabet.
Proof.
  unfold choice.
  assert (Hall : forallb (λ i, match String.get i alphabet with
                               | Some c => bool_decide
                                             (c ∈ list_ascii_of_string alphabet)
                               | None => false
                               end) (seq 0 36) = true) by by vm_compute.
  assert (Hlt : (draw mod 36 < 36)%nat) by (apply Nat.mod_upper_bound; lia).
  pose proof (proj1 (forallb_forall _ _) Hall (draw mod 36)%nat) as Hi.
  cbv beta in Hi.
  destruct (String.get (draw mod 36) alphabet) as [c|].
  - apply (bool_decide_eq_true_1 (c ∈ list_ascii_of_string alphabet)).
    apply Hi, in_seq. lia.
  - discriminate Hi. apply in_seq. lia.
Qed.

Lemma length_string_of_list_ascii (l : list ascii) :
  String.length (string_of_list_ascii l) = length l.
Proof. induction l; simpl; congruence. Qed.

Lemma next_fake_id_shape (w : World) : is_pseudo_id (next_fake_id w).
Proof.
  unfold is_pseudo_id, next_fake_id. split.
  - by rewrite length_string_of_list_ascii, length_fmap, length_seq.
  - rewrite list_ascii_of_string_of_list_ascii.
    apply Forall_fmap, Forall_forall. intros i _. apply choice_in_alphabet.
Qed.

(** ** What a save and a merge leave in the store *)

Lemma docs_set_merge db name doc_id data :
  firestore.docs (firestore.set_merge db name doc_id data) !! name
    ≫= (.!! doc_id)
  = Some ((firestore.stamp (firestore.now db) <$> data)
          ∪ default ∅ (firestore.docs db !! name ≫= (.!! doc_id))).
Proof. unfold firestore.set_merge. apply docs_write. Qed.

Lemma item_a1_id : getattr item_a1 "id" = VStr "a1".
Proof. unfold getattr, item_a1. by rewrite lookup_insert_eq. Qed.


Lemma save_item_a1_test_mode g :
  save add_s Item item_a1 g (Some true) (start true)
  = Ok (item_a1,
        set_cache (cache_handler.add_document (cache (start true))
                     (_get_collection_name add_s Item) (VStr "a1") item_a1)
          (start true)).
Proof.
  rewrite save_test_mode_known; [|done|by rewrite item_a1_id].
  rewrite item_a1_id. unfold item_a1 at 1. by rewrite insert_insert_eq.
Qed.

Lemma save_new_item_live :
  save add_s Item new_item false (Some false) (start false)
  = Ok (<["id" := VStr "doc"]> new_item,
        set_db
          (firestore.write (firestore.Client ∅ 100 (firestore.auto_id empty_store) 1)
             "Items" "doc" (firestore.stamp 100 <$> insert_payload new_item))
          (start false)).
Proof.
  by rewrite (save_live_insert add_s Item new_item false (Some false)
                (start false) "Items").
Qed.

(** C3 (code bug): in test mode, the save of [Item(name="a")], which has
    no id, assigns a pseudo-id of twenty lowercase letters and digits but
    stores the document with [created_at] and [updated_at] still [None];
    and the save of [Item(id="a1", name="a")] with [generate_new_id] true
    keeps the id "a1".  In live mode the same insert stores both timestamps
    as the time of the write. *)
Theorem save_insert_stamps_only_in_live_mode :
  (∃ w' d,
     save add_s Item new_item false (Some true) (start true)
     = Ok (<["id" := VStr (next_fake_id (start true))]> new_item, w') ∧
     is_pseudo_id (next_fake_id (start true)) ∧
     stored_document add_s Item true w' (VStr (next_fake_id (start true)))
     = Some d ∧
     d !! "created_at" = Some VNone ∧ d !! "updated_at" = Some VNone) ∧
  (∃ w', save add_s Item item_a1 true (Some true) (start true)
         = Ok (item_a1, w')) ∧
  (∃ w' d,
     save add_s Item new_item false (Some false) (start false)
     = Ok (<["id" := VStr "doc"]> new_item, w') ∧
     stored_document add_s Item false w' (VStr "doc") = Some d ∧
     d !! "created_at" = Some (VTime 100) ∧
     d !! "updated_at" = Some (VTime 100)).
Proof.
  split; [|split].
  - eexists _, new_item.
    split; [by apply save_test_mode_new|].
    split; [apply next_fake_id_shape|].
    split; [apply get_document_add_document|]. done.
  - eexists. apply save_item_a1_test_mode.
  - eexists _, _.
    split; [apply save_new_item_live|].
    split.
    + unfold stored_document. rewrite Item_live_collection_name.
      apply docs_write.
    + by rewrite !stamped_insert_payload.
Qed.

(** C4 (code bug): in test mode neither a save, as insert or as update,
    nor a merge refreshes [updated_at]: the document each leaves in the
    cache has [updated_at] as the record had it, here [None].  In live mode
    a save as update stores the time of the write, and a merge writes
    nothing to the store. *)
Theorem updated_at_refreshed_only_by_live_save :
  (∃ w' d,
     save add_s Item new_item false (Some true) (start true)
     = Ok (<["id" := VStr (next_fake_id (start true))]> new_item, w') ∧
     stored_document add_s Item true w' (VStr (next_fake_id (start true)))
     = Some d ∧
     d !! "updated_at" = Some VNone) ∧
  (∃ w' d,
     save add_s Item item_a1 false (Some true) (start true)
     = Ok (item_a1, w') ∧
     stored_document add_s Item true w' (VStr "a1") = Some d ∧
     d !! "updated_at" = Some VNone) ∧
  (∃ merged w' d,
     merge add_s Item item_a1 [("name", VStr "b")] false None (Some true)
       (start true) = Ok (merged, w') ∧
     stored_document add_s Item true w' (VStr "a1") = Some d ∧
     d !! "name" = Some (VStr "b") ∧
     d !! "updated_at" = Some VNone) ∧
  (∃ w' d,
     save add_s Item item_a1 false (Some false) (start false)
     = Ok (item_a1, w') ∧
     stored_document add_s Item false w' (VStr "a1") = Some d ∧
     d !! "updated_at" = Some (VTime 100)) ∧
  (∃ merged w',
     merge add_s Item item_a1 [("name", VStr "b")] false None (Some false)
       (start false) = Ok (merged, w') ∧
     db w' = db (start false) ∧ cache w' = cache (start false)).
Proof.
  split; [|split; [|split; [|split]]].
  - eexists _, new_item.
    split; [by apply save_test_mode_new|].
    split; [apply get_document_add_document|]. done.
  - eexists _, item_a1.
    split; [apply save_item_a1_test_mode|].
    split; [apply get_document_add_document|]. done.
  - eexists _, _, (<["name" := VStr "b"]> item_a1).
    split.
    + rewrite (merge_test_mode add_s Item _ _ _ _ _ _ []); [done..|].
      constructor; [|done]. right. apply list_elem_of_here.
    + split; [|by rewrite lookup_insert_eq].
      unfold stored_document, assigned. simpl.
      unfold getattr. rewrite lookup_insert_ne by done.
      fold (getattr item_a1 "id"). rewrite item_a1_id.
      apply get_document_add_document.
  - eexists _, _.
    split.
    + apply (save_live_update add_s Item item_a1 (Some false) (start false)
               "Items" "a1"); [done|done|apply item_a1_id|done].
    + split.
      * unfold stored_document. rewrite Item_live_collection_name.
        apply docs_set_merge.
      * apply lookup_union_Some_l. rewrite lookup_fmap.
        by rewrite lookup_insert_eq.
  - eexists _, _.
    split.
    + apply (merge_live add_s Item _ _ _ _ _ _ []); [done..|].
      constructor; [|done]. right. apply list_elem_of_here.
    + done.
Qed.

(** C5 (code bug): in live mode, [Item(name="a")] is saved, which stores
    [created_at] as the time of the insert, and then saved again without a
    change; the second save, an update, stores the [created_at] of the
    record in memory, which is still [None], in place of the time of the
    insert. *)
Theorem save_update_live_overwrites_created_at :
  ∃ saved w1 w2,
    save add_s Item new_item false (Some false) (start false)
    = Ok (saved, w1) ∧
    stored_document add_s Item false w1 (getattr saved "id")
      ≫= (.!! "created_at") = Some (VTime 100) ∧
    save add_s Item saved false (Some false) w1 = Ok (saved, w2) ∧
    stored_document add_s Item false w2 (getattr saved "id")
      ≫= (.!! "created_at") = Some VNone.
Proof.
  assert (Hid : getattr (<["id" := VStr "doc"]> new_item) "id" = VStr "doc")
    by (unfold getattr; by rewrite lookup_insert_eq).
  eexists _, _, _.
  split; [apply save_new_item_live|].
  rewrite Hid. unfold stored_document. rewrite Item_live_collection_name.
  split; [|split].
  - cbn [db set_db]. rewrite docs_write. simpl.
    by rewrite stamped_insert_payload.
  - by apply (save_live_update add_s Item _ (Some false) _ "Items" "doc").
  - cbn [db set_db]. rewrite docs_set_merge. simpl.
    apply lookup_union_Some_l. rewrite lookup_fmap.
    rewrite lookup_insert_ne by done. by rewrite lookup_insert_ne.
Qed.

(** * Further properties of the operations *)

(** ** Generated ids *)

(** X1: [generate_fake_firebase_id] always returns a string of twenty
    characters, each a lowercase letter or a digit, and takes twenty draws
    from the generator; nothing else of the process changes. *)
Theorem generate_fake_firebase_id_shape (w : World) :
  ∃ fake,
    generate_fake_firebase_id w = Ok (fake, set_rand_pos (rand_pos w + 20) w) ∧
    is_pseudo_id fake.
Proof.
  exists (next_fake_id w). split; [reflexivity | apply next_fake_id_shape].
Qed.

(** ** Pages at the ends *)

Lemma mapM_Res_length {A B : Type} (f : A → Res B) (l : list A) (k : list B) :
  mapM f l = Ok k → length k = length l.
Proof.
  revert k. induction l as [|x l IH]; intros k; simpl.
  - by intros [= <-].
  - destruct (f x); simpl; [|done].
    destruct (mapM f l) as [k'|]; simpl; [|done].
    intros [= <-]. simpl. f_equal. by apply IH.
Qed.

Section PageEnds.
Variable plural : string → string.

(** X2: in test mode, a page of [get_page] never holds more records than
    [page_size], and the call leaves the process as it was. *)
Theorem get_page_test_mode_at_most_page_size
    cls page page_size qp ac tm w records w' :
  1 ≤ page → 0 ≤ page_size →
  effective tm w = true →
  get_page plural cls page page_size qp ac tm w = Ok (records, w') →
  (length records ≤ Z.to_nat page_size)%nat ∧ w' = w.
Proof.
  intros Hpage Hsize Hmode Hget.
  destruct (filtered_docs plural cls qp ac w) as [docs|e] eqn:Hdocs.
  - rewrite (get_page_test_mode_window _ _ _ _ _ _ _ _ docs) in Hget by done.
    unfold lift in Hget.
    destruct (mapM _ _) as [k|] eqn:Hk; [|done].
    injection Hget as <- <-. split; [|done].
    rewrite (mapM_Res_length _ _ _ Hk), length_take. lia.
  - by rewrite (get_page_filter_raises _ _ _ _ _ _ _ _ e) in Hget.
Qed.

(** X3: in test mode, a page past the last record is empty, not an
    error: when the filters leave N documents and (page - 1) * page_size is
    at least N, [get_page] returns the empty list. *)
Theorem get_page_past_the_end_is_empty cls page page_size qp ac tm w docs :
  1 ≤ page → 0 ≤ page_size →
  effective tm w = true →
  filtered_docs plural cls qp ac w = Ok docs →
  Z.of_nat (length docs) ≤ (page - 1) * page_size →
  get_page plural cls page page_size qp ac tm w = Ok ([], w).
Proof.
  intros Hpage Hsize Hmode Hdocs Hpast.
  rewrite (get_page_test_mode_window _ _ _ _ _ _ _ _ docs) by done.
  rewrite drop_ge; [by rewrite take_nil|].
  rewrite <- Z2Nat.inj_mul by lia. lia.
Qed.

(** X4: in test mode, page 0 is empty whatever the collection holds: its
    window is the slice from [-page_size] to [0]. *)
Theorem get_page_zero_is_empty cls page_size qp ac tm w docs :
  0 ≤ page_size →
  effective tm w = true →
  filtered_docs plural cls qp ac w = Ok docs →
  get_page plural cls 0 page_size qp ac tm w = Ok ([], w).
Proof.
  intros Hsize Hmode Hdocs.
  rewrite (get_page_test_mode _ _ _ _ _ _ _ _ docs) by done.
  replace (py_slice docs ((0 - 1) * page_size)
             ((0 - 1) * page_size + page_size)) with (@nil Doc); [done|].
  unfold py_slice, slice_bound.
  replace ((0 - 1) * page_size + page_size) with 0 by lia.
  rewrite Z.ltb_irrefl.
  rewrite (Z.min_l 0) by lia.
  destruct ((0 - 1) * page_size <? 0) eqn:Hneg.
  - replace (Z.to_nat (0 - Z.max 0 (Z.of_nat (length docs)
                                     + (0 - 1) * page_size))) with 0%nat by lia.
    by rewrite take_0.
  - apply Z.ltb_ge in Hneg.
    replace (Z.to_nat (0 - Z.min ((0 - 1) * page_size)
                             (Z.of_nat (length docs)))) with 0%nat by lia.
    by rewrite take_0.
Qed.

(** X5: in test mode, [get_all] returns what the pages 1 to
    ceil(N / page_size) of [get_page] without filters return one after the
    other, for every page size of at least one. *)
Theorem get_all_is_all_pages cls page_size tm w :
  1 ≤ page_size →
  effective tm w = true →
  get_all plural cls tm w
  = get_pages plural cls 1
      (page_count
         (length (cache_handler.list_collection (cache w)
                    (_get_collection_name plural cls))) page_size)
      page_size None None tm w.
Proof.
  intros Hsize Hmode.
  rewrite (get_pages_test_mode_all _ _ _ _ _ _ _
             (cache_handler.list_collection (cache w)
                (_get_collection_name plural cls))) by done.
  unfold effective in Hmode. unfold get_all. run_m. by rewrite Hmode.
Qed.

End PageEnds.

Lemma red_world_unfiltered :
  filtered_docs add_s Item None None red_world
  = Ok (cache_handler.list_collection (cache red_world)
          (_get_collection_name add_s Item)).
Proof. reflexivity. Qed.

Lemma get_page_test_mode_at_most_page_size_witness :
  ∃ records,
    get_page add_s Item 3 4 None None None red_world = Ok (records, red_world) ∧
    (length records ≤ Z.to_nat 4)%nat.
Proof.
  destruct (get_page add_s Item 3 4 None None None red_world)
    as [[records w']|e] eqn:Hget.
  - destruct (get_page_test_mode_at_most_page_size add_s Item 3 4 None None
                None red_world records w') as [Hlen ->]; [lia|lia|done|done|].
    by exists records.
  - exfalso.
    rewrite (get_page_test_mode_window add_s Item 3 4 None None None red_world
               _ ltac:(lia) ltac:(lia) eq_refl red_world_unfiltered) in Hget.
    rewrite red_world_collection in Hget.
    unfold lift in Hget.
    destruct (mapM _ _) eqn:Hm; [done|].
    revert Hm. clear. unfold red_docs. simpl.
    rewrite !(construct_instance Item); [done|..];
      (apply is_instance_insert; [apply new_item_is_instance|]);
      apply list_elem_of_fmap; exists ("tags", Some (VList []));
      (split; [done|]); apply list_elem_of_further, list_elem_of_here.
Defined.

Lemma red_world_length :
  length (cache_handler.list_collection (cache red_world)
            (_get_collection_name add_s Item)) = 11%nat.
Proof.
  rewrite red_world_collection. unfold red_docs.
  by rewrite !length_fmap, length_seq.
Qed.

Lemma get_page_past_the_end_is_empty_witness :
  get_page add_s Item 4 4 None None None red_world = Ok ([], red_world).
Proof.
  apply (get_page_past_the_end_is_empty add_s Item 4 4 None None None red_world
           (cache_handler.list_collection (cache red_world)
              (_get_collection_name add_s Item))).
  - lia.
  - lia.
  - reflexivity.
  - apply red_world_unfiltered.
  - rewrite red_world_length. lia.
Defined.

Lemma get_page_zero_is_empty_witness :
  get_page add_s Item 0 4 None None None red_world = Ok ([], red_world).
Proof.
  apply (get_page_zero_is_empty add_s Item 4 None None None red_world
           (cache_handler.list_collection (cache red_world)
              (_get_collection_name add_s Item))).
  - lia.
  - reflexivity.
  - apply red_world_unfiltered.
Defined.

Lemma get_all_is_all_pages_witness :
  get_all add_s Item None red_world
  = get_pages add_s Item 1
      (page_count
         (length (cache_handler.list_collection (cache red_world)
                    (_get_collection_name add_s Item))) 4)
      4 None None None red_world.
Proof.
  apply get_all_is_all_pages; [lia | reflexivity].
Defined.

(** ** What a merge assigns *)

Lemma assigned_excluded exclude_props update_data self k :
  k ∈ exclude_props →
  assigned exclude_props update_data self !! k = self !! k.
Proof.
  intros Hk. unfold assigned. revert self.
  induction update_data as [|item items IH]; intros self; [done|].
  simpl. case_bool_decide as Hex; [apply IH|].
  rewrite IH. apply lookup_insert_ne. intros Heq. apply Hex. by rewrite Heq.
Qed.


Section MergeAssigns.
Variable plural : string → string.

(** X6: in either mode, a [merge] whose keys are fields of the record or
    excluded returns, and the record it leaves has every field named in
    [exclude_props] as it was before the call. *)
Theorem merge_skips_exclude_props
    cls self update_data overwrite_id ref tm w excluded :
  read_list ref w = Ok (excluded, w) →
  Forall (λ item : string * value,
            item.1 ∈ excluded ∨ item.1 ∈ field_names cls) update_data →
  ∃ merged w',
    merge plural cls self update_data overwrite_id ref tm w = Ok (merged, w') ∧
    ∀ k, k ∈ excluded → merged !! k = self !! k.
Proof.
  intros Hread Hfields.
  destruct (effective tm w) eqn:Hmode; eexists _, _.
  - split; [by apply merge_test_mode|].
    intros k Hk. by apply assigned_excluded.
  - split; [by apply merge_live|].
    intros k Hk. rewrite assigned_excluded; [by apply assigned_excluded|].
    apply elem_of_app. by left.
Qed.


End MergeAssigns.

Lemma merge_skips_exclude_props_witness :
  ∃ merged w',
    merge add_s Item item_a1 [("name", VStr "b"); ("tags", VList [VStr "red"])]
      false (Some 0%nat) (Some true)
      (set_heap {[0%nat := ["name"]]} (start true))
    = Ok (merged, w') ∧
    ∀ k, k ∈ ["name"] → merged !! k = item_a1 !! k.
Proof.
  apply (merge_skips_exclude_props add_s Item item_a1
           [("name", VStr "b"); ("tags", VList [VStr "red"])] false
           (Some 0%nat) (Some true)
           (set_heap {[0%nat := ["name"]]} (start true)) ["name"]).
  - reflexivity.
  - constructor; [left; apply list_elem_of_here|].
    constructor; [right; apply list_elem_of_further, list_elem_of_here|].
    constructor.
Defined.


(** ** Construction from a document *)

Lemma lookup_collected_given (kwargs : Doc) (fs : list (string * option value))
    k v :
  kwargs !! k = Some v → k ∈ fs.*1 →
  (list_to_map (omap (λ f, pair f.1 <$> field_value kwargs f) fs) : Doc) !! k
  = Some v.
Proof.
  intros Hk. induction fs as [|f fs IH]; intros Hin.
  - by apply elem_of_nil in Hin.
  - simpl. destruct (decide (f.1 = k)) as [Heq|Hne].
    + unfold field_value at 1. rewrite Heq, Hk. simpl.
      by rewrite lookup_insert_eq.
    + assert (Hin' : k ∈ fs.*1).
      { simpl in Hin. apply elem_of_cons in Hin as [?|?]; [congruence|done]. }
      destruct (field_value kwargs f) as [u|]; simpl.
      * rewrite lookup_insert_ne by done. by apply IH.
      * by apply IH.
Qed.

Lemma construct_lookup_given cls kwargs m k v :
  construct cls kwargs = Ok m →
  k ∈ field_names cls → kwargs !! k = Some v →
  m !! k = Some v.
Proof.
  unfold construct. destruct (forallb _ _); [|done].
  intros [= <-] Hin Hk. by apply lookup_collected_given.
Qed.

Lemma id_is_a_field cls : "id" ∈ field_names cls.
Proof.
  apply list_elem_of_fmap. exists ("id", Some VNone). split; [done|].
  apply elem_of_app. right. apply list_elem_of_here.
Qed.

Lemma created_at_is_a_field cls : "created_at" ∈ field_names cls.
Proof.
  apply list_elem_of_fmap. exists ("created_at", Some VNone). split; [done|].
  apply elem_of_app. right. apply list_elem_of_further, list_elem_of_here.
Qed.

Lemma updated_at_is_a_field cls : "updated_at" ∈ field_names cls.
Proof.
  apply list_elem_of_fmap. exists ("updated_at", Some VNone). split; [done|].
  apply elem_of_app. right.
  apply list_elem_of_further, list_elem_of_further, list_elem_of_here.
Qed.

Lemma is_instance_by_lookup cls self :
  (∀ k, is_Some (self !! k) ↔ k ∈ field_names cls) → is_instance cls self.
Proof.
  intros H. unfold is_instance. apply set_eq. intros k.
  rewrite elem_of_dom, elem_of_list_to_set. apply H.
Qed.

(** ** Fetching from the live store *)

Section LiveFetch.
Variable plural : string → string.

Lemma get_by_id_live cls doc_id tm w d :
  effective tm w = false →
  firestore.docs (db w) !! _get_collection_name plural cls ≫= (.!! doc_id)
  = Some d →
  get_by_id plural cls doc_id tm w
  = (m ← lift (of_snapshot cls doc_id d); mret (Some m)) w.
Proof.
  unfold effective. intros Hmode Hd.
  unfold get_by_id. run_m. rewrite Hmode.
  unfold firestore.get. by rewrite Hd.
Qed.

(** X8: in live mode, the record that [get_by_id] returns for a stored
    document carries the id under which the store holds the document,
    whatever an [id] field of the document says; its other fields are those
    of the document. *)
Theorem get_by_id_live_takes_store_id cls doc_id tm w d fetched w' :
  effective tm w = false →
  firestore.docs (db w) !! _get_collection_name plural cls ≫= (.!! doc_id)
  = Some d →
  get_by_id plural cls doc_id tm w = Ok (Some fetched, w') →
  fetched !! "id" = Some (VStr doc_id) ∧
  (∀ k v, k ≠ "id" → k ∈ field_names cls → d !! k = Some v →
          fetched !! k = Some v) ∧
  w' = w.
Proof.
  intros Hmode Hd Hget.
  rewrite (get_by_id_live _ _ _ _ d) in Hget by done.
  revert Hget. run_m. unfold of_snapshot.
  destruct (construct cls _) as [m|] eqn:Hm; [|done].
  intros [= <- <-]. split; [|split; [|done]].
  - apply (construct_lookup_given _ _ _ _ _ Hm); [apply id_is_a_field|].
    apply lookup_insert_eq.
  - intros k v Hk Hin Hv.
    apply (construct_lookup_given _ _ _ _ _ Hm); [done|].
    rewrite lookup_insert_ne by done. by rewrite lookup_delete_ne.
Qed.

End LiveFetch.

Lemma item_doc_is_instance doc_id name : is_instance Item (item_doc doc_id name).
Proof.
  unfold item_doc.
  apply is_instance_insert; [|apply id_is_a_field].
  apply is_instance_insert; [apply new_item_is_instance|].
  apply list_elem_of_here.
Qed.

Lemma get_by_id_live_takes_store_id_witness :
  get_by_id add_s Item "k1" None stocked
  = Ok (Some (item_doc "k1" "apple"), stocked) ∧
  item_doc "k1" "apple" !! "id" = Some (VStr "k1") ∧
  (∀ k v, k ≠ "id" → k ∈ field_names Item →
          item_doc "other" "apple" !! k = Some v →
          item_doc "k1" "apple" !! k = Some v) ∧
  stocked = stocked.
Proof.
  assert (Hget : get_by_id add_s Item "k1" None stocked
                 = Ok (Some (item_doc "k1" "apple"), stocked)).
  { rewrite (get_by_id_live add_s Item "k1" None stocked
               (item_doc "other" "apple") eq_refl eq_refl).
    run_m. unfold of_snapshot, item_doc.
    rewrite insert_delete_eq, insert_insert_eq.
    fold (item_doc "k1" "apple").
    by rewrite (construct_instance Item _ (item_doc_is_instance _ _)). }
  split; [exact Hget|].
  exact (get_by_id_live_takes_store_id add_s Item "k1" None stocked
           (item_doc "other" "apple") (item_doc "k1" "apple") stocked
           eq_refl eq_refl Hget).
Defined.

(** ** Save, then fetch, in live mode *)

Section LiveRoundTrip.
Variable plural : string → string.

Lemma fetched_after_insert_is_instance cls self t new_id :
  is_instance cls self →
  is_instance cls
    (<["id" := VStr new_id]>
       (base.delete "id" (firestore.stamp t <$> insert_payload self))).
Proof.
  intros Hinst. apply is_instance_by_lookup. intros k.
  destruct (decide (k = "id")) as [->|Hid].
  { rewrite lookup_insert_eq. split; [intros _; apply id_is_a_field | eauto]. }
  rewrite lookup_insert_ne, lookup_delete_ne, stamped_insert_payload by done.
  destruct (decide (k = "updated_at")) as [->|?].
  { split; [intros _; apply updated_at_is_a_field | eauto]. }
  destruct (decide (k = "created_at")) as [->|?].
  { split; [intros _; apply created_at_is_a_field | eauto]. }
  rewrite decide_False by done.
  rewrite fmap_is_Some. by apply is_instance_lookup.
Qed.

(** X9: in live mode, when [save] and [get_by_id] name the same
    collection, a record that is saved as an insert and then fetched by the
    id the store gave it comes back with that id, with [created_at] and
    [updated_at] both the time of the write, and with its other fields as
    the record has them. *)
Theorem save_then_get_by_id_live cls self g tm w :
  is_instance cls self →
  effective tm w = false →
  live_collection_name plural cls = Ok (_get_collection_name plural cls) →
  negb (truthy (getattr self "id")) || g = true →
  firestore.docs (db w) !! _get_collection_name plural cls
    ≫= (.!! firestore.auto_id (db w) (firestore.auto_pos (db w))) = None →
  ∃ new_id w' fetched,
    save plural cls self g tm w = Ok (<["id" := VStr new_id]> self, w') ∧
    get_by_id plural cls new_id tm w' = Ok (Some fetched, w') ∧
    fetched !! "id" = Some (VStr new_id) ∧
    fetched !! "created_at" = Some (VTime (firestore.now (db w))) ∧
    fetched !! "updated_at" = Some (VTime (firestore.now (db w))) ∧
    ∀ k, k ≠ "id" → k ≠ "created_at" → k ≠ "updated_at" →
         fetched !! k = firestore.stamp (firestore.now (db w)) <$> self !! k.
Proof.
  intros Hinst Hmode Hname Hinsert Hfresh.
  eexists _, _, _.
  split; [by apply save_live_insert|].
  split.
  { rewrite (get_by_id_live _ _ _ _ _
               (firestore.stamp (firestore.now (db w)) <$> insert_payload self)).
    - run_m. unfold of_snapshot.
      by rewrite (construct_instance cls _
                    (fetched_after_insert_is_instance cls self _ _ Hinst)).
    - done.
    - cbn [db set_db]. apply docs_write. }
  split; [apply lookup_insert_eq|].
  split; [|split].
  - rewrite lookup_insert_ne, lookup_delete_ne by done.
    by rewrite stamped_insert_payload.
  - rewrite lookup_insert_ne, lookup_delete_ne by done.
    by rewrite stamped_insert_payload.
  - intros k Hid Hca Hua.
    rewrite lookup_insert_ne, lookup_delete_ne by done.
    rewrite stamped_insert_payload. by rewrite !decide_False.
Qed.

Lemma live_collection_name_undeclared cls :
  "collection_name" ∉ (declared cls).*1 →
  live_collection_name plural cls = Ok (plural (__name__ cls)).
Proof.
  intros Hno. unfold live_collection_name.
  rewrite (not_elem_of_list_to_map_1 (__fields__ cls) "collection_name");
    [done|].
  unfold __fields__. rewrite fmap_app, not_elem_of_app. split; [done|].
  simpl. rewrite !not_elem_of_cons. repeat split; [done..|apply not_elem_of_nil].
Qed.

(** X10: in live mode, [save] does not write to the collection that
    [__collection_name__] names: for a record type that overrides it and
    declares no field [collection_name], the document goes to the
    collection of the plural of the type's name, and [get_by_id] on the id
    the save assigned, which reads the collection of the override, returns
    [None]. *)
Theorem save_live_ignores_collection_override cls self g tm w :
  effective tm w = false →
  "collection_name" ∉ (declared cls).*1 →
  __collection_name__ cls ≠ "" →
  __collection_name__ cls ≠ plural (__name__ cls) →
  negb (truthy (getattr self "id")) || g = true →
  firestore.docs (db w) !! plural (__name__ cls)
    ≫= (.!! firestore.auto_id (db w) (firestore.auto_pos (db w))) = None →
  firestore.docs (db w) !! __collection_name__ cls
    ≫= (.!! firestore.auto_id (db w) (firestore.auto_pos (db w))) = None →
  ∃ new_id w',
    save plural cls self g tm w = Ok (<["id" := VStr new_id]> self, w') ∧
    is_Some (firestore.docs (db w') !! plural (__name__ cls) ≫= (.!! new_id)) ∧
    get_by_id plural cls new_id tm w' = Ok (None, w').
Proof.
  intros Hmode Hno Hover Hdiff Hinsert Hfresh Habsent.
  eexists _, _.
  split.
  { apply save_live_insert; [done| by apply live_collection_name_undeclared
                            |done|done]. }
  split.
  { cbn [db set_db]. rewrite docs_write. eauto. }
  unfold effective in Hmode. unfold get_by_id. run_m. cbn [config_test_mode set_db].
  rewrite Hmode. unfold firestore.get. cbn [db set_db].
  assert (Hname : _get_collection_name plural cls = __collection_name__ cls).
  { unfold _get_collection_name. simpl.
    apply String.eqb_neq in Hover. by rewrite Hover. }
  rewrite Hname. unfold firestore.write. cbn [firestore.docs].
  rewrite lookup_insert_ne by done.
  by rewrite Habsent.
Qed.

End LiveRoundTrip.

Lemma save_then_get_by_id_live_witness :
  ∃ new_id w' fetched,
    save add_s Item new_item false None (start false)
    = Ok (<["id" := VStr new_id]> new_item, w') ∧
    get_by_id add_s Item new_id None w' = Ok (Some fetched, w') ∧
    fetched !! "id" = Some (VStr new_id) ∧
    fetched !! "created_at" = Some (VTime 100) ∧
    fetched !! "updated_at" = Some (VTime 100) ∧
    ∀ k, k ≠ "id" → k ≠ "created_at" → k ≠ "updated_at" →
         fetched !! k = firestore.stamp 100 <$> new_item !! k.
Proof.
  apply (save_then_get_by_id_live add_s Item new_item false None (start false)).
  - apply new_item_is_instance.
  - reflexivity.
  - reflexivity.
  - reflexivity.
  - reflexivity.
Defined.

Lemma save_live_ignores_collection_override_witness :
  ∃ new_id w',
    save add_s Gadget new_gadget false None (start false)
    = Ok (<["id" := VStr new_id]> new_gadget, w') ∧
    is_Some (firestore.docs (db w') !! "Gadgets" ≫= (.!! new_id)) ∧
    get_by_id add_s Gadget new_id None w' = Ok (None, w').
Proof.
  apply (save_live_ignores_collection_override add_s Gadget new_gadget false
           None (start false)).
  - reflexivity.
  - simpl. rewrite not_elem_of_cons. split; [done|apply not_elem_of_nil].
  - done.
  - done.
  - reflexivity.
  - reflexivity.
  - reflexivity.
Defined.

(** ** Delete, then fetch *)

Lemma dict_get_absent {V : Type} (d : list (value * V)) k :
  k ∉ d.*1 → dict_get k d = None.
Proof.
  induction d as [|[k' v] d IH]; [done|].
  simpl. rewrite not_elem_of_cons. intros [Hne Hin].
  rewrite value_eqb_ne by done. by apply IH.
Qed.

Lemma dict_get_del_eq {V : Type} (d : list (value * V)) k :
  NoDup d.*1 → dict_get k (dict_del k d) = None.
Proof.
  induction d as [|[k' v] d IH]; [done|].
  simpl. intros [Hnotin Hd]%NoDup_cons.
  destruct (value_eqb k' k) eqn:E.
  - apply value_eqb_eq in E as ->. by apply dict_get_absent.
  - simpl. rewrite E. by apply IH.
Qed.

Section StoreEffects.
Variable plural : string → string.

(** X11: a record that is deleted cannot be fetched any more: in either
    mode, after [delete] on a record whose id is a string, [get_by_id] on
    that id returns [None].  In test mode this is for a cache that holds at
    most one document under each id. *)
Theorem delete_then_get_by_id cls self doc_id tm w :
  getattr self "id" = VStr doc_id →
  (effective tm w = true →
   NoDup (cache_handler.collection (cache w)
            (_get_collection_name plural cls)).*1) →
  ∃ w', delete plural cls self tm w = Ok (tt, w') ∧
        get_by_id plural cls doc_id tm w' = Ok (None, w').
Proof.
  unfold effective. intros Hid Hkeys.
  destruct (default (config_test_mode w) tm) eqn:Hmode.
  - eexists. split.
    + unfold delete. run_m. by rewrite Hmode, Hid.
    + unfold get_by_id. run_m. cbn [config_test_mode set_cache].
      rewrite Hmode. cbn [cache set_cache].
      unfold cache_handler.get_document, cache_handler.delete_document.
      unfold cache_handler.collection at 1. rewrite lookup_insert_eq. simpl.
      by rewrite dict_get_del_eq by auto.
  - eexists. split.
    + unfold delete. run_m. by rewrite Hmode, Hid.
    + unfold get_by_id. run_m. cbn [config_test_mode set_db].
      rewrite Hmode. cbn [db set_db]. unfold firestore.get, firestore.delete.
      cbn [firestore.docs]. rewrite lookup_insert_eq. simpl.
      by rewrite lookup_delete_eq.
Qed.

(** ** Merge, then fetch; save twice *)


Lemma dict_set_idemp {V : Type} (d : list (value * V)) k v :
  dict_set k v (dict_set k v d) = dict_set k v d.
Proof.
  induction d as [|[k' v'] d IH]; simpl.
  - by rewrite value_eqb_refl.
  - destruct (value_eqb k' k) eqn:E; simpl; rewrite E; [done|by rewrite IH].
Qed.

Lemma add_document_idemp c name doc_id data :
  cache_handler.add_document (cache_handler.add_document c name doc_id data)
    name doc_id data
  = cache_handler.add_document c name doc_id data.
Proof.
  unfold cache_handler.add_document.
  unfold cache_handler.collection at 1. rewrite lookup_insert_eq. simpl.
  by rewrite insert_insert_eq, dict_set_idemp.
Qed.

(** X13: in test mode, saving a record that has an id is idempotent: the
    save returns the record as it is, and a second save of it leaves the
    process exactly as the first one left it. *)
Theorem save_test_mode_idempotent cls self g tm w :
  effective tm w = true →
  truthy (getattr self "id") = true →
  ∃ w', save plural cls self g tm w = Ok (self, w') ∧
        save plural cls self g tm w' = Ok (self, w').
Proof.
  intros Hmode Hid.
  assert (Hsame : <["id" := getattr self "id"]> self = self).
  { apply insert_id. unfold getattr in *.
    by destruct (self !! "id"). }
  eexists. split.
  - rewrite save_test_mode_known by done. by rewrite Hsame.
  - rewrite save_test_mode_known by done. rewrite Hsame.
    cbn [cache set_cache]. by rewrite add_document_idemp.
Qed.

(** ** A filter on a field that holds no list *)

(** X14: in test mode, [get_page] with an [array_contains] filter raises
    [TypeError] when the first document that the query returns holds a
    number other than zero in the field of the first filter: the number is
    true, and [in] does not apply to it. *)
Theorem get_page_array_contains_on_number_raises
    cls page page_size qp key v rest tm w doc others n :
  effective tm w = true →
  cache_handler.query_collection (cache w) (_get_collection_name plural cls) qp
  = doc :: others →
  doc !! key = Some (VInt n) → n ≠ 0 →
  get_page plural cls page page_size qp (Some ((key, v) :: rest)) tm w
  = Raise TypeError.
Proof.
  unfold effective. intros Hmode Hquery Hfield Hn.
  unfold get_page. run_m. rewrite Hmode, Hquery. simpl.
  unfold contains_all. simpl. rewrite Hfield. simpl.
  apply Z.eqb_neq in Hn. by rewrite Hn.
Qed.

End StoreEffects.

Lemma delete_then_get_by_id_witness :
  (∃ w', delete add_s Item (item_doc "a1" "apple") None shelf_world
         = Ok (tt, w') ∧
         get_by_id add_s Item "a1" None w' = Ok (None, w')) ∧
  (∃ w', delete add_s Item (item_doc "k1" "apple") None stocked = Ok (tt, w') ∧
         get_by_id add_s Item "k1" None w' = Ok (None, w')).
Proof.
  split.
  - apply (delete_then_get_by_id add_s Item (item_doc "a1" "apple") "a1" None
             shelf_world).
    + unfold getattr, item_doc. by rewrite lookup_insert_eq.
    + intros _.
      change (NoDup [VStr "a1"; VStr "b2"; VStr "e0"]).
      repeat (constructor;
              [rewrite ?not_elem_of_cons; repeat split;
               try discriminate; apply not_elem_of_nil|]).
      constructor.
  - apply (delete_then_get_by_id add_s Item (item_doc "k1" "apple") "k1" None
             stocked).
    + unfold getattr, item_doc. by rewrite lookup_insert_eq.
    + discriminate.
Defined.


Lemma save_test_mode_idempotent_witness :
  ∃ w', save add_s Item item_a1 false None (start true) = Ok (item_a1, w') ∧
        save add_s Item item_a1 false None w' = Ok (item_a1, w').
Proof.
  apply save_test_mode_idempotent.
  - reflexivity.
  - by rewrite item_a1_id.
Defined.

Lemma get_page_array_contains_on_number_raises_witness :
  get_page add_s Item 1 10 None (Some [("tags", VStr "red")]) None odd_world
  = Raise TypeError.
Proof.
  apply (get_page_array_contains_on_number_raises add_s Item 1 10 None "tags"
           (VStr "red") [] None odd_world (<["tags" := VInt 3]> new_item) [] 3).
  - reflexivity.
  - reflexivity.
  - apply lookup_insert_eq.
  - lia.
Defined.
